(** * Jaga-Pohon-Apps: tree inventory benefit models

    A shallow embedding of the benefit computation of the application:

    - [services/carbonCalculator.ts]           (module [CarbonCalculator])
    - [services/ecosystemServiceCalculator.ts] (module [EcosystemServiceCalculator])
    - [App.tsx], [handleAddTree]               (module [App])
    - [components/Dashboard.tsx], [stats]      (module [Dashboard])
    - [components/Dashboard.tsx], [downloadCSV] (module [Csv], the quoting)
    - [components/MapDisplay.tsx]              (module [MapDisplay])
    - [services/pdfGenerator.ts], the summary  (module [PdfGenerator])
    - [services/geminiService.ts], validation  (module [GeminiService])
    - [components/DataCollectionForm.tsx]      (module [DataCollectionForm])
    - the JavaScript built-ins these call      (modules [Js], [JsNumber],
                                                [JsArray], [JsObject])

    JavaScript numbers are read in two ways.

    - Over the mathematical reals: [+], [*], [<=] are the exact operations,
      [Math.exp] and [Math.log] are [exp] and [ln], and [Math.pow] on a
      positive base is [Rpower].  Rounding, underflow, NaN and the
      infinities are outside this reading; the properties stated over it
      are equations between the very operations the code performs, orders
      that rounding keeps, and facts about the records, lists and texts
      around the numbers.
    - Over IEEE-754 binary64 (module [Binary64]), for the two calculators,
      where a property turns on rounding or underflow. *)

From Stdlib Require Import Reals Lra Lia ZArith List String Ascii Bool.
From Stdlib Require Import Permutation Sorted.
From Stdlib Require Floats.
Import ListNotations.

Open Scope R_scope.
#[local] Set Warnings "-inexact-float".

(** ** JavaScript runtime functions used by the sources *)

Module Js.

(** [Math.pow(x, y)].  Every call in the sources has a base that is
    positive at the call (both calls sit behind the [dbh <= 0 || height <= 0]
    early return), where the mathematical value is [exp (y * ln x)].  The
    mathematical value is positive for every such base; the binary64 one
    can underflow to 0, see [Binary64]. *)
Definition Math_pow (x y : R) : R := Rpower x y.

Definition Math_exp (x : R) : R := exp x.

(** [Math.log(x)]; called only behind the [dbh <= 0] early return. *)
Definition Math_log (x : R) : R := ln x.

End Js.

(** ** types.ts

    The records follow the object literals that build them in the services,
    in the form and in [handleAddTree]. *)

(** [ProximityToBuilding]: the three values the form offers,
    ['None'], ['Near'] and ['Far']. *)
Inductive ProximityToBuilding : Type :=
| ProxNone
| ProxNear
| ProxFar.

Definition ProximityToBuilding_eqb (a b : ProximityToBuilding) : bool :=
  match a, b with
  | ProxNone, ProxNone | ProxNear, ProxNear | ProxFar, ProxFar => true
  | _, _ => false
  end.

Record CarbonMetrics : Type := mkCarbonMetrics {
  biomass : R;
  carbonStored : R;
  co2Sequestrated : R
}.

Record MonetaryValue : Type := mkMonetaryValue {
  total : R;
  carbon : R;
  stormwater : R;
  airQuality : R;
  energy : R
}.

Record EcosystemServices : Type := mkEcosystemServices {
  stormwaterInterceptedLiters : R;
  airPollutionRemovedGrams : R;
  energySavingsIDR : R;
  annualMonetaryValue : MonetaryValue
}.

(** Modelled from the spec: the enum [TreeCondition] of [types.ts], which is
    not among the sources; its three members [HEALTHY], [DAMAGED], [DEAD] are
    used by the dashboard and the form, and the spec gives their values as
    [Healthy], [Damaged] and [Dead]. *)
Inductive TreeCondition : Type :=
| HEALTHY
| DAMAGED
| DEAD.

Definition TreeCondition_value (c : TreeCondition) : string :=
  match c with
  | HEALTHY => "Healthy"
  | DAMAGED => "Damaged"
  | DEAD => "Dead"
  end%string.

Definition TreeCondition_eqb (a b : TreeCondition) : bool :=
  match a, b with
  | HEALTHY, HEALTHY | DAMAGED, DAMAGED | DEAD, DEAD => true
  | _, _ => false
  end.

(** [Omit<TreeData, 'id' | 'carbon' | 'ecosystemServices'>], the object the
    form hands to [onAddTree]. *)
Module NewTree.
Record t : Type := mk {
  species : string;
  dbh : R;
  height : R;
  condition : TreeCondition;
  proximityToBuilding : ProximityToBuilding;
  notes : string;
  photo : string;
  latitude : R;
  longitude : R;
  inventoryDate : string
}.
End NewTree.

(** [TreeData]. *)
Module Tree.
Record t : Type := mk {
  species : string;
  dbh : R;
  height : R;
  condition : TreeCondition;
  proximityToBuilding : ProximityToBuilding;
  notes : string;
  photo : string;
  latitude : R;
  longitude : R;
  inventoryDate : string;
  id : Z;
  carbon : CarbonMetrics;
  ecosystemServices : EcosystemServices
}.
End Tree.

Inductive AppView : Type :=
| ViewForm
| ViewMap
| ViewDashboard.

(** ** services/carbonCalculator.ts *)

Module CarbonCalculator.

Definition WOOD_DENSITY : R := 0.6.
Definition CARBON_CONVERSION_FACTOR : R := 0.47.
Definition CO2_CONVERSION_FACTOR : R := 3.67.

Definition calculateCarbonMetrics (dbh height : R) : CarbonMetrics :=
  if Rle_dec dbh 0 then mkCarbonMetrics 0 0 0
  else if Rle_dec height 0 then mkCarbonMetrics 0 0 0
  else
    let biomass :=
      0.0673 * Js.Math_pow (WOOD_DENSITY * Js.Math_pow dbh 2 * height) 0.976 in
    let carbonStored := biomass * CARBON_CONVERSION_FACTOR in
    let co2Sequestrated := carbonStored * CO2_CONVERSION_FACTOR in
    mkCarbonMetrics biomass carbonStored co2Sequestrated.

End CarbonCalculator.

(** ** services/ecosystemServiceCalculator.ts *)

Module EcosystemServiceCalculator.
Import CarbonCalculator.

Definition USD_TO_IDR_RATE : R := 16000.

Definition SOCIAL_COST_OF_CARBON_PER_KG_CO2_IDR : R := 0.05 * USD_TO_IDR_RATE.
Definition STORMWATER_MANAGEMENT_COST_PER_LITER_IDR : R := 0.002 * USD_TO_IDR_RATE.
Definition AIR_POLLUTION_HEALTH_SAVINGS_PER_GRAM_IDR : R := 0.08 * USD_TO_IDR_RATE.

Definition LEAF_AREA_PARAM_A : R := -2.2.
Definition LEAF_AREA_PARAM_B : R := 1.8.

Definition RAINFALL_INTERCEPTION_LITERS_PER_M2_LEAF_AREA : R := 180.
Definition POLLUTION_REMOVAL_GRAMS_PER_M2_LEAF_AREA : R := 1.5.

Definition calculateEcosystemServices
    (dbh : R) (proximityToBuilding : ProximityToBuilding) : EcosystemServices :=
  if Rle_dec dbh 0 then
    mkEcosystemServices 0 0 0 (mkMonetaryValue 0 0 0 0 0)
  else
    let leafArea :=
      Js.Math_exp (LEAF_AREA_PARAM_A + LEAF_AREA_PARAM_B * Js.Math_log dbh) in
    let stormwaterInterceptedLiters :=
      leafArea * RAINFALL_INTERCEPTION_LITERS_PER_M2_LEAF_AREA in
    let airPollutionRemovedGrams :=
      leafArea * POLLUTION_REMOVAL_GRAMS_PER_M2_LEAF_AREA in
    let energySavingsIDR :=
      if ProximityToBuilding_eqb proximityToBuilding ProxNear then
        let energySavingsUSD := 10 + dbh * 0.25 in
        energySavingsUSD * USD_TO_IDR_RATE
      else 0 in
    let tempCarbonMetrics := calculateCarbonMetrics dbh (dbh * 0.5) in
    let valueFromCarbon :=
      co2Sequestrated tempCarbonMetrics * SOCIAL_COST_OF_CARBON_PER_KG_CO2_IDR in
    let valueFromStormwater :=
      stormwaterInterceptedLiters * STORMWATER_MANAGEMENT_COST_PER_LITER_IDR in
    let valueFromAirQuality :=
      airPollutionRemovedGrams * AIR_POLLUTION_HEALTH_SAVINGS_PER_GRAM_IDR in
    let valueFromEnergy := energySavingsIDR in
    let totalValue :=
      valueFromCarbon + valueFromStormwater + valueFromAirQuality + valueFromEnergy in
    mkEcosystemServices
      stormwaterInterceptedLiters
      airPollutionRemovedGrams
      energySavingsIDR
      (mkMonetaryValue totalValue valueFromCarbon valueFromStormwater
                       valueFromAirQuality valueFromEnergy).

End EcosystemServiceCalculator.

Import CarbonCalculator EcosystemServiceCalculator.

(** ** App.tsx *)

Module App.

(** The two pieces of component state [handleAddTree] writes. *)
Record State : Type := mkState {
  view : AppView;
  trees : list Tree.t
}.

(** The object [newTree] that [handleAddTree(newTreeData)] builds; [now] is
    the value [Date.now()] returns during the call (milliseconds since the
    epoch, an integer). *)
Definition newTree (newTreeData : NewTree.t) (now : Z) : Tree.t :=
  let carbonMetrics :=
    calculateCarbonMetrics (NewTree.dbh newTreeData) (NewTree.height newTreeData) in
  let ecosystemServices :=
    calculateEcosystemServices (NewTree.dbh newTreeData)
                               (NewTree.proximityToBuilding newTreeData) in
  Tree.mk (NewTree.species newTreeData) (NewTree.dbh newTreeData)
          (NewTree.height newTreeData) (NewTree.condition newTreeData)
          (NewTree.proximityToBuilding newTreeData) (NewTree.notes newTreeData)
          (NewTree.photo newTreeData) (NewTree.latitude newTreeData)
          (NewTree.longitude newTreeData) (NewTree.inventoryDate newTreeData)
          now carbonMetrics ecosystemServices.

(** [handleAddTree(newTreeData)]: [setTrees(prevTrees => [newTree,
    ...prevTrees])] and [setView('dashboard')]. *)
Definition handleAddTree (newTreeData : NewTree.t) (now : Z) (st : State) : State :=
  mkState ViewDashboard (newTree newTreeData now :: trees st).

(** A session: the calls of [handleAddTree] in the order they happen, each
    with its argument and the clock reading it observes. *)
Definition session (calls : list (NewTree.t * Z)) (st : State) : State :=
  fold_left (fun s call => handleAddTree (fst call) (snd call) s) calls st.

(** The records a session added: the newest [length calls] entries. *)
Definition added (calls : list (NewTree.t * Z)) (st : State) : list Tree.t :=
  firstn (List.length calls) (trees (session calls st)).

End App.

(** ** JavaScript built-ins used by the dashboard *)

Module JsNumber.

(** The integer [n] for which [n / 100 - x] is as close to zero as
    possible, the larger one when there are two (step 6 of
    [Number.prototype.toFixed] with [fractionDigits = 2], for [0 <= x]). *)
Definition nearestHundredth (x : R) : Z := Int_part (x * 100 + / 2).

(** The number [parseFloat(x.toFixed(2))].  [toFixed] prints the sign and
    then the digits of [nearestHundredth] of the absolute value with the
    decimal point before the last two; from [1e21] on it prints the number
    itself, which [parseFloat] reads back.  The value here is the decimal
    that was printed; [parseFloat] returns the binary64 number next to it,
    which has the same sign and is 0 for the same texts. *)
Definition parseFloat_toFixed2 (x : R) : R :=
  if Rlt_dec x 0 then
    if Rle_dec 1e21 (- x) then x
    else - (IZR (nearestHundredth (- x)) / 100)
  else
    if Rle_dec 1e21 x then x
    else IZR (nearestHundredth x) / 100.

(** [0 < x] as a boolean, for [Array.prototype.filter] callbacks. *)
Definition gt0 (x : R) : bool := if Rlt_dec 0 x then true else false.

(** Truthiness of a number: every real but [0]. *)
Definition truthy (x : R) : bool := if Req_dec_T x 0 then false else true.

End JsNumber.

Module JsArray.

Section Sort.
Context {A : Type}.

(** [after a b] is [comparator(a, b) > 0]: [a] has to come after [b]. *)
Variable after : A -> A -> bool.

Fixpoint insert (a : A) (l : list A) : list A :=
  match l with
  | [] => [a]
  | b :: l' => if after a b then b :: insert a l' else a :: l
  end.

(** [Array.prototype.sort(comparator)]: a stable sort.  With a
    consistent comparator every stable sort returns this list.  With an
    inconsistent one (a comparator that returns NaN for some pairs, as
    [b.value - a.value] does on a string) ECMA-262 leaves the order to the
    implementation; the list is then a permutation of the engine's. *)
Definition sort (l : list A) : list A := fold_right insert [] l.

End Sort.

End JsArray.

Module JsObject.

(** A property value met in [speciesCount]: a number, or the string that
    [+ 1] makes of an inherited built-in function (its source text, named
    here by the property it was read from, followed by [ones] characters
    [1], one for each increment). *)
Inductive value : Type :=
| Num (n : nat)
| Str (builtin : string) (ones : nat).

(** The own properties of an object made by the literal [{}], in creation
    order. *)
Definition t : Type := list (string * value).

Definition empty : t := [].

(** The function-valued properties every [{}] inherits from
    [Object.prototype]. *)
Definition prototypeFunctions : list string :=
  [ "constructor"; "hasOwnProperty"; "isPrototypeOf"; "propertyIsEnumerable";
    "toLocaleString"; "toString"; "valueOf";
    "__defineGetter__"; "__defineSetter__";
    "__lookupGetter__"; "__lookupSetter__" ]%string.

Definition inherited (key : string) : bool :=
  existsb (String.eqb key) prototypeFunctions.

Fixpoint getOwn (o : t) (key : string) : option value :=
  match o with
  | [] => None
  | (k, v) :: o' => if String.eqb k key then Some v else getOwn o' key
  end.

(** [o[key] = v] for a key other than [__proto__]: an existing own
    property keeps its place, a new one is created last. *)
Fixpoint set (o : t) (key : string) (v : value) : t :=
  match o with
  | [] => [(key, v)]
  | (k, w) :: o' =>
      if String.eqb k key then (k, v) :: o' else (k, w) :: set o' key v
  end.

(** [acc[key] = (acc[key] || 0) + 1].
    - [__proto__] reads [Object.prototype], an object; adding 1 gives a
      string, and the [__proto__] setter ignores a string: nothing changes.
    - An own number [n] becomes [n + 1]; an own string gets a [1] appended.
    - Without an own property the read goes to the prototype: an inherited
      function is truthy and [+ 1] turns it into a string; otherwise the
      read is [undefined] and the result is [0 + 1]. *)
Definition increment (acc : t) (key : string) : t :=
  if String.eqb key "__proto__" then acc
  else
    match getOwn acc key with
    | Some (Num n) => set acc key (Num (n + 1))
    | Some (Str f k) => set acc key (Str f (k + 1))
    | None =>
        if inherited key then set acc key (Str key 1)
        else set acc key (Num 1)
    end.

(** An array index: the canonical decimal form of an integer from [0] to
    [2^32 - 2]. *)
Definition digit (c : ascii) : option N :=
  let n := N_of_ascii c in
  if (48 <=? n)%N && (n <=? 57)%N then Some (n - 48)%N else None.

Fixpoint digits (s : string) (acc : N) : option N :=
  match s with
  | EmptyString => Some acc
  | String c s' =>
      match digit c with
      | Some d => digits s' (10 * acc + d)%N
      | None => None
      end
  end.

Definition arrayIndex (key : string) : option N :=
  match key with
  | EmptyString => None
  | String c rest =>
      if Ascii.eqb c "0" && negb (String.eqb rest EmptyString) then None
      else
        match digits key 0 with
        | Some n => if (n <=? 4294967294)%N then Some n else None
        | None => None
        end
  end.

Definition isIndex (e : string * value) : bool :=
  match arrayIndex (fst e) with Some _ => true | None => false end.

Definition indexAfter (a b : string * value) : bool :=
  match arrayIndex (fst a), arrayIndex (fst b) with
  | Some m, Some n => (n <? m)%N
  | _, _ => false
  end.

(** [Object.entries(o)]: the array-index keys in ascending numeric order,
    then the other keys in creation order. *)
Definition entries (o : t) : list (string * value) :=
  JsArray.sort indexAfter (filter isIndex o)
    ++ filter (fun e => negb (isIndex e)) o.

End JsObject.

(** ** components/Dashboard.tsx *)

Module Dashboard.

Record Stats : Type := mkStats {
  totalTrees : nat;
  totalCarbon : R;
  totalStormwater : R;
  totalPollution : R;
  totalMonetaryValue : R;
  speciesData : list (string * JsObject.value);
  monetaryBreakdown : list (string * R);
  carbonByConditionData : list (TreeCondition * R)
}.

(** [trees.reduce((acc, tree) => acc + f(tree), 0)]: the sum taken from
    the left, starting at 0, as the code takes it. *)
Definition sumOver (f : Tree.t -> R) (trees : list Tree.t) : R :=
  fold_left (fun acc tree => acc + f tree) trees 0.

Definition speciesCount (trees : list Tree.t) : JsObject.t :=
  fold_left (fun acc tree => JsObject.increment acc (Tree.species tree))
            trees JsObject.empty.

(** [(a, b) => b.value - a.value] is positive exactly when both values are
    numbers and [b]'s is the larger; with a string on either side the
    difference is NaN, which [sort] takes for [+0]. *)
Definition valueAfter (a b : string * JsObject.value) : bool :=
  match snd a, snd b with
  | JsObject.Num m, JsObject.Num n => (m <? n)%nat
  | _, _ => false
  end.

(** The object [carbonByCondition]: one optional number per condition. *)
Definition CarbonByCondition : Type := TreeCondition -> option R.

Definition setCondition (acc : CarbonByCondition) (c : TreeCondition)
    (v : R) : CarbonByCondition :=
  fun c' => if TreeCondition_eqb c c' then Some v else acc c'.

(** [!acc[condition]]: the property is missing or is [0]. *)
Definition falsy (v : option R) : bool :=
  match v with
  | None => true
  | Some x => negb (JsNumber.truthy x)
  end.

Definition addCarbon (acc : CarbonByCondition) (tree : Tree.t)
    : CarbonByCondition :=
  let condition := Tree.condition tree in
  let acc1 := if falsy (acc condition) then setCondition acc condition 0 else acc in
  match acc1 condition with
  | Some v => setCondition acc1 condition (v + co2Sequestrated (Tree.carbon tree))
  | None => acc1
  end.

Definition carbonByCondition (trees : list Tree.t) : CarbonByCondition :=
  fold_left addCarbon trees (fun _ => None).

Definition conditionOrder : list TreeCondition := [HEALTHY; DAMAGED; DEAD].

Definition stats (trees : list Tree.t) : Stats :=
  match trees with
  | [] => mkStats 0 0 0 0 0 [] [] []
  | _ :: _ =>
      let totalTrees := List.length trees in
      let totalCarbon := sumOver (fun tree => co2Sequestrated (Tree.carbon tree)) trees in
      let totalStormwater :=
        sumOver (fun tree => stormwaterInterceptedLiters (Tree.ecosystemServices tree)) trees in
      let totalPollution :=
        sumOver (fun tree => airPollutionRemovedGrams (Tree.ecosystemServices tree)) trees in
      let totalMonetaryValue :=
        sumOver (fun tree => total (annualMonetaryValue (Tree.ecosystemServices tree))) trees in
      let totalValueCarbon :=
        sumOver (fun tree => carbon (annualMonetaryValue (Tree.ecosystemServices tree))) trees in
      let totalValueStormwater :=
        sumOver (fun tree => stormwater (annualMonetaryValue (Tree.ecosystemServices tree))) trees in
      let totalValueAirQuality :=
        sumOver (fun tree => airQuality (annualMonetaryValue (Tree.ecosystemServices tree))) trees in
      let totalValueEnergy :=
        sumOver (fun tree => energy (annualMonetaryValue (Tree.ecosystemServices tree))) trees in
      let speciesData :=
        JsArray.sort valueAfter (JsObject.entries (speciesCount trees)) in
      let monetaryBreakdown :=
        filter (fun item => JsNumber.gt0 (snd item))
          [ ("Penyimpanan Karbon"%string, totalValueCarbon);
            ("Manajemen Air Hujan"%string, totalValueStormwater);
            ("Kualitas Udara"%string, totalValueAirQuality);
            ("Penghematan Energi"%string, totalValueEnergy) ] in
      let carbonByCondition := carbonByCondition trees in
      let carbonByConditionData :=
        filter (fun item => JsNumber.gt0 (snd item))
          (map (fun condition =>
                  (condition,
                   match carbonByCondition condition with
                   | Some v =>
                       if JsNumber.truthy v then JsNumber.parseFloat_toFixed2 v else 0
                   | None => 0
                   end))
               conditionOrder) in
      mkStats totalTrees totalCarbon totalStormwater totalPollution
              totalMonetaryValue speciesData monetaryBreakdown
              carbonByConditionData
  end.

End Dashboard.

(** ** components/MapDisplay.tsx *)

Module MapDisplay.

(** [center]: the position of [trees[0]], or the fixed default when there
    is no tree. *)
Definition center (trees : list Tree.t) : R * R :=
  match trees with
  | tree :: _ => (Tree.latitude tree, Tree.longitude tree)
  | [] => (34.0522, -118.2437)
  end.

(** The markers: one per tree, keyed by [tree.id], at the tree's position. *)
Definition markers (trees : list Tree.t) : list (Z * (R * R)) :=
  map (fun tree => (Tree.id tree, (Tree.latitude tree, Tree.longitude tree))) trees.

End MapDisplay.

(** ** services/pdfGenerator.ts *)

Module PdfGenerator.

(** The summary statistics [generatePdfReport] computes before it lays the
    report out. *)
Record Summary : Type := mkSummary {
  totalTrees : nat;
  totalCO2 : R;
  totalStormwater : R;
  totalPollution : R;
  totalValue : R
}.

Definition summary (trees : list Tree.t) : Summary :=
  let totalTrees := List.length trees in
  let totalCO2 :=
    fold_left (fun sum tree => sum + co2Sequestrated (Tree.carbon tree)) trees 0 in
  let totalStormwater :=
    fold_left (fun sum tree =>
                 sum + stormwaterInterceptedLiters (Tree.ecosystemServices tree))
              trees 0 in
  let totalPollution :=
    fold_left (fun sum tree =>
                 sum + airPollutionRemovedGrams (Tree.ecosystemServices tree))
              trees 0 in
  let totalValue :=
    fold_left (fun sum tree =>
                 sum + total (annualMonetaryValue (Tree.ecosystemServices tree)))
              trees 0 in
  mkSummary totalTrees totalCO2 totalStormwater totalPollution totalValue.

End PdfGenerator.

(** ** services/geminiService.ts *)

Module GeminiService.

(** The response of the model after [JSON.parse]; [condition] is whatever
    text the response carries. *)
Record ParsedResult : Type := mkParsedResult {
  parsed_species : string;
  parsed_latitude : R;
  parsed_longitude : R;
  parsed_condition : string;
  parsed_estimatedDbh : R;
  parsed_estimatedHeight : R
}.

(** [TreeAnalysisResult]. *)
Record TreeAnalysisResult : Type := mkTreeAnalysisResult {
  species : string;
  latitude : R;
  longitude : R;
  condition : TreeCondition;
  estimatedDbh : R;
  estimatedHeight : R
}.

(** [Object.values(TreeCondition)]. *)
Definition conditions : list TreeCondition := [HEALTHY; DAMAGED; DEAD].

(** [Object.values(TreeCondition).includes(c) ? c : TreeCondition.HEALTHY]. *)
Definition validCondition (c : string) : TreeCondition :=
  match find (fun t => String.eqb (TreeCondition_value t) c) conditions with
  | Some t => t
  | None => HEALTHY
  end.

(** The object [analyzeTreeImage] returns for a parsed response. *)
Definition validated (r : ParsedResult) : TreeAnalysisResult :=
  mkTreeAnalysisResult (parsed_species r) (parsed_latitude r) (parsed_longitude r)
                       (validCondition (parsed_condition r))
                       (parsed_estimatedDbh r) (parsed_estimatedHeight r).

End GeminiService.

(** ** components/DataCollectionForm.tsx *)

Module DataCollectionForm.

(** The state of the form: the text of every input, the chosen options,
    the photo and the error line. *)
Record Form : Type := mkForm {
  species : string;
  dbh : string;
  height : string;
  condition : TreeCondition;
  proximityToBuilding : ProximityToBuilding;
  notes : string;
  photo : option string;
  latitude : string;
  longitude : string;
  error : option string
}.

Definition initial : Form :=
  mkForm EmptyString EmptyString EmptyString HEALTHY ProxNone EmptyString None
         EmptyString EmptyString None.

(** [resetForm()]. *)
Definition resetForm (f : Form) : Form := initial.

(** [!s] for a text. *)
Definition blank (s : string) : bool := String.eqb s EmptyString.

(** [!photo]: no photo, or an empty one. *)
Definition noPhoto (p : option string) : bool :=
  match p with
  | None => true
  | Some s => blank s
  end.


Section Runtime.

(** [parseFloat] on the text of a number input and [String] on a number. *)
Variable parseFloat : string -> R.
Variable String_of_number : R -> string.

(** [handleSubmit]: the new state of the form and, when the form is
    complete, the object passed to [onAddTree]; [isoNow] is
    [new Date().toISOString()]. *)
Definition handleSubmit (f : Form) (isoNow : string) : Form * option NewTree.t :=
  if noPhoto (photo f) || blank (species f) || blank (dbh f) || blank (height f)
     || blank (latitude f) || blank (longitude f)
  then
    (mkForm (species f) (dbh f) (height f) (condition f) (proximityToBuilding f)
            (notes f) (photo f) (latitude f) (longitude f)
            (Some "Harap isi semua kolom yang wajib diisi dan unggah foto."%string),
     None)
  else
    let treeData :=
      NewTree.mk (species f) (parseFloat (dbh f)) (parseFloat (height f))
                 (condition f) (proximityToBuilding f) (notes f)
                 (match photo f with Some p => p | None => EmptyString end)
                 (parseFloat (latitude f)) (parseFloat (longitude f)) isoNow in
    (resetForm f, Some treeData).


End Runtime.

End DataCollectionForm.

(** The form as [App] mounts it, with [onAddTree = handleAddTree]: the
    submit handler of a render whose entries are [f], run at the clock
    reading [now].  The form it returns is the state the next render will
    show; a handler of the same render, run again, still holds [f]. *)
Definition submit (parseFloat : string -> R)
    (f : DataCollectionForm.Form) (st : App.State) (isoNow : string) (now : Z)
    : DataCollectionForm.Form * App.State :=
  match DataCollectionForm.handleSubmit parseFloat f isoNow with
  | (f', Some treeData) => (f', App.handleAddTree treeData now st)
  | (f', None) => (f', st)
  end.

(** ** components/Dashboard.tsx, [downloadCSV] *)

(** The quoting of a text field ([species], [notes]) in [downloadCSV]: the
    field between two double-quote characters, every double quote inside it
    replaced by two. *)
Module Csv.

Definition quote : ascii := "034"%char.

Fixpoint escapeQuotes (s : string) : string :=
  match s with
  | EmptyString => EmptyString
  | String c s' =>
      if Ascii.eqb c quote then String quote (String quote (escapeQuotes s'))
      else String c (escapeQuotes s')
  end.

Definition quoted (s : string) : string :=
  String quote (escapeQuotes s ++ String quote EmptyString).

End Csv.

(** ** The calculators on binary64 numbers

    The two calculators once more, now on the numbers JavaScript has:
    IEEE-754 binary64, every [+] and [*] rounded to nearest, comparisons
    false on NaN.  ECMA-262 leaves the precision of [Math.pow], [Math.exp]
    and [Math.log] to the implementation, so the engine's three functions
    are a parameter of the definitions. *)

Module Binary64.
Import Floats.
Local Open Scope float_scope.

(** The functions of the engine's [Math] object that the calculators call. *)
Record MathObject : Type := mkMath {
  Math_pow : float -> float -> float;
  Math_exp : float -> float;
  Math_log : float -> float
}.

Record CarbonMetrics : Type := mkCarbonMetrics {
  biomass : float;
  carbonStored : float;
  co2Sequestrated : float
}.

Record MonetaryValue : Type := mkMonetaryValue {
  total : float;
  carbon : float;
  stormwater : float;
  airQuality : float;
  energy : float
}.

Record EcosystemServices : Type := mkEcosystemServices {
  stormwaterInterceptedLiters : float;
  airPollutionRemovedGrams : float;
  energySavingsIDR : float;
  annualMonetaryValue : MonetaryValue
}.

Definition WOOD_DENSITY : float := 0.6.
Definition CARBON_CONVERSION_FACTOR : float := 0.47.
Definition CO2_CONVERSION_FACTOR : float := 3.67.

Definition calculateCarbonMetrics (M : MathObject) (dbh height : float)
    : CarbonMetrics :=
  if (dbh <=? 0) || (height <=? 0) then mkCarbonMetrics 0 0 0
  else
    let biomass :=
      0.0673 * Math_pow M (WOOD_DENSITY * Math_pow M dbh 2 * height) 0.976 in
    let carbonStored := biomass * CARBON_CONVERSION_FACTOR in
    let co2Sequestrated := carbonStored * CO2_CONVERSION_FACTOR in
    mkCarbonMetrics biomass carbonStored co2Sequestrated.

Definition USD_TO_IDR_RATE : float := 16000.

Definition SOCIAL_COST_OF_CARBON_PER_KG_CO2_IDR : float := 0.05 * USD_TO_IDR_RATE.
Definition STORMWATER_MANAGEMENT_COST_PER_LITER_IDR : float := 0.002 * USD_TO_IDR_RATE.
Definition AIR_POLLUTION_HEALTH_SAVINGS_PER_GRAM_IDR : float := 0.08 * USD_TO_IDR_RATE.

Definition LEAF_AREA_PARAM_A : float := -2.2.
Definition LEAF_AREA_PARAM_B : float := 1.8.

Definition RAINFALL_INTERCEPTION_LITERS_PER_M2_LEAF_AREA : float := 180.
Definition POLLUTION_REMOVAL_GRAMS_PER_M2_LEAF_AREA : float := 1.5.

Definition calculateEcosystemServices (M : MathObject)
    (dbh : float) (proximityToBuilding : ProximityToBuilding) : EcosystemServices :=
  if dbh <=? 0 then
    mkEcosystemServices 0 0 0 (mkMonetaryValue 0 0 0 0 0)
  else
    let leafArea :=
      Math_exp M (LEAF_AREA_PARAM_A + LEAF_AREA_PARAM_B * Math_log M dbh) in
    let stormwaterInterceptedLiters :=
      leafArea * RAINFALL_INTERCEPTION_LITERS_PER_M2_LEAF_AREA in
    let airPollutionRemovedGrams :=
      leafArea * POLLUTION_REMOVAL_GRAMS_PER_M2_LEAF_AREA in
    let energySavingsIDR :=
      if ProximityToBuilding_eqb proximityToBuilding ProxNear then
        let energySavingsUSD := 10 + dbh * 0.25 in
        energySavingsUSD * USD_TO_IDR_RATE
      else 0 in
    let tempCarbonMetrics := calculateCarbonMetrics M dbh (dbh * 0.5) in
    let valueFromCarbon :=
      co2Sequestrated tempCarbonMetrics * SOCIAL_COST_OF_CARBON_PER_KG_CO2_IDR in
    let valueFromStormwater :=
      stormwaterInterceptedLiters * STORMWATER_MANAGEMENT_COST_PER_LITER_IDR in
    let valueFromAirQuality :=
      airPollutionRemovedGrams * AIR_POLLUTION_HEALTH_SAVINGS_PER_GRAM_IDR in
    let valueFromEnergy := energySavingsIDR in
    let totalValue :=
      valueFromCarbon + valueFromStormwater + valueFromAirQuality + valueFromEnergy in
    mkEcosystemServices
      stormwaterInterceptedLiters
      airPollutionRemovedGrams
      energySavingsIDR
      (mkMonetaryValue totalValue valueFromCarbon valueFromStormwater
                       valueFromAirQuality valueFromEnergy).

(** What every [Math.pow] does: for a base that is not negative and a
    positive exponent the result is not negative (it is a number from [+0]
    up, or NaN). *)
Definition powKeepsSign (M : MathObject) : Prop :=
  forall x y, (x <? 0) = false -> (0 <? y) = true -> (Math_pow M x y <? 0) = false.

(** The two values of [Math.pow] a tree of [1e-200] by [1e-200] reaches:
    [1e-400] is below the smallest binary64 number, so the square is [+0],
    and ECMA-262 fixes [Math.pow(+0, y)] at [+0] for [y > 0]. *)
Definition underflowsAtTiny (M : MathObject) : Prop :=
  Math_pow M 1e-200 2 = 0 /\ Math_pow M 0 0.976 = 0.


(** A table of the engine's three functions at the arguments the examples
    reach, NaN everywhere else: [Math.pow(50, 2)], [Math.pow(37500, 0.976)],
    [Math.pow(1e-200, 2)], [Math.pow(0, 0.976)], [Math.exp(-2.2)] and
    [Math.log(1)]. *)
Definition sampleMath : MathObject :=
  mkMath (fun x y =>
            if (x =? 50) && (y =? 2) then 2500
            else if (x =? 37500) && (y =? 0.976) then 29124.234372165283
            else if (x =? 1e-200) && (y =? 2) then 0
            else if (x =? 0) && (y =? 0.976) then 0
            else nan)
         (fun x => if x =? -2.2 then 0.11080315836233387 else nan)
         (fun x => if x =? 1 then 0 else nan).

End Binary64.

(** * Definitions used by the statements *)

(** A form submission with the given species and clock reading. *)
Definition sampleTree (species : string) (now : Z) : NewTree.t * Z :=
  (NewTree.mk species 50 25 HEALTHY ProxNear EmptyString "data:image/jpeg;base64,"
              (-6.2) 106.8 "2024-05-01T00:00:00.000Z", now).

(** The sum of [co2Sequestrated] over the trees of one condition, as the
    summary is described: select the trees of the condition, add up their
    figures. *)
Definition co2OfCondition (c : TreeCondition) (trees : list Tree.t) : R :=
  fold_right Rplus 0
    (map (fun tree => co2Sequestrated (Tree.carbon tree))
         (filter (fun tree => TreeCondition_eqb (Tree.condition tree) c) trees)).

(** The number read from a slot of [carbonByCondition], a missing slot
    counting for 0. *)
Definition slotValue (v : option R) : R :=
  match v with
  | Some x => x
  | None => 0
  end.

(** A stored record with the given species, condition and CO2 figure. *)
Definition storedTree (species : string) (c : TreeCondition) (co2 : R) : Tree.t :=
  Tree.mk species 50 25 c ProxNone EmptyString EmptyString (-6.2) 106.8
          "2024-05-01T00:00:00.000Z" 1714521600000
          (mkCarbonMetrics (co2 / 3.67 / 0.47) (co2 / 3.67) co2)
          (calculateEcosystemServices 50 ProxNone).

(** The count an entry of [speciesData] carries, 0 for a string. *)
Definition countOf (e : string * JsObject.value) : nat :=
  match snd e with
  | JsObject.Num n => n
  | JsObject.Str _ _ => 0
  end.

(** A key that [{}] does not inherit: neither a function of
    [Object.prototype] nor [__proto__]. *)
Definition ordinaryKey (key : string) : bool :=
  negb (JsObject.inherited key) && negb (String.eqb key "__proto__").

(** The number of trees of a species, by exact comparison of the strings. *)
Definition occurrences (name : string) (trees : list Tree.t) : nat :=
  count_occ string_dec (map Tree.species trees) name.

(** [o] holds exactly the counts of the keys of [l]. *)
Definition counted (o : JsObject.t) (l : list string) : Prop :=
  NoDup (map fst o) /\
  forall k,
    JsObject.getOwn o k =
      if (count_occ string_dec l k =? 0)%nat then None
      else Some (JsObject.Num (count_occ string_dec l k)).

(** The submission of a sapling: 0.1 cm across, 0.1 m high, Healthy. *)
Definition sapling : NewTree.t :=
  NewTree.mk "Jati" 0.1 0.1 HEALTHY ProxNone EmptyString "data:image/jpeg;base64,"
             (-6.2) 106.8 "2024-05-01T00:00:00.000Z".

(** A record whose two metric objects are the ones the calculators give
    for its own measurements. *)
Definition computed (tree : Tree.t) : Prop :=
  Tree.carbon tree = calculateCarbonMetrics (Tree.dbh tree) (Tree.height tree) /\
  Tree.ecosystemServices tree =
    calculateEcosystemServices (Tree.dbh tree) (Tree.proximityToBuilding tree).

(** The sum of a list of numbers. *)
Definition sumList (l : list R) : R := fold_right Rplus 0 l.

(** What [speciesCount] holds under a key after the species of [l] have
    been counted: nothing for a species that does not occur and for
    [__proto__]; the number of occurrences for a key [{}] does not inherit;
    for an inherited function name the string with one [1] per occurrence. *)
Definition entryFor (l : list string) (k : string) : option JsObject.value :=
  let n := count_occ string_dec l k in
  if (n =? 0)%nat || String.eqb k "__proto__" then None
  else if JsObject.inherited k then Some (JsObject.Str k n)
       else Some (JsObject.Num n).

Definition recorded (o : JsObject.t) (l : list string) : Prop :=
  NoDup (map fst o) /\ forall k, JsObject.getOwn o k = entryFor l k.

(** The number a value of [speciesCount] stands for: the count, or the
    number of [1]s appended to the string. *)
Definition tallyOf (v : JsObject.value) : nat :=
  match v with
  | JsObject.Num n => n
  | JsObject.Str _ k => k
  end.

(** The distinct strings of a list, in the order in which they first
    appear. *)
Definition firstAppearance (l : list string) : list string :=
  fold_left (fun acc s => if existsb (String.eqb s) acc then acc else acc ++ [s]) l [].

(** A species name that is an ordinary key and not an array index. *)
Definition plainName (s : string) : bool :=
  ordinaryKey s && match JsObject.arrayIndex s with Some _ => false | None => true end.

(** The reading of a quoted CSV field (RFC 4180): after the opening quote,
    two quotes stand for one, a single quote ends the field, and nothing
    may follow it. *)
Fixpoint unquoteBody (s : string) : option string :=
  match s with
  | EmptyString => None
  | String c s' =>
      if Ascii.eqb c Csv.quote then
        match s' with
        | EmptyString => Some EmptyString
        | String c' s'' =>
            if Ascii.eqb c' Csv.quote then
              match unquoteBody s'' with
              | Some r => Some (String Csv.quote r)
              | None => None
              end
            else None
        end
      else
        match unquoteBody s' with
        | Some r => Some (String c r)
        | None => None
        end
  end.

Definition unquote (s : string) : option string :=
  match s with
  | EmptyString => None
  | String c s' => if Ascii.eqb c Csv.quote then unquoteBody s' else None
  end.

(** A stand-in for [parseFloat] on three texts, for the examples. *)
Definition sampleParseFloat (s : string) : R :=
  if String.eqb s "0" then 0
  else if String.eqb s "50" then 50
  else if String.eqb s "25" then 25
  else 1.

(** A filled-in form with the given diameter text. *)
Definition filledForm (dbhText : string) : DataCollectionForm.Form :=
  DataCollectionForm.mkForm "Jati" dbhText "25" HEALTHY ProxNear EmptyString
    (Some "data:image/jpeg;base64,"%string) "1" "1" None.

(** The all-zero result of [calculateEcosystemServices]. *)
Definition noServices : EcosystemServices :=
  mkEcosystemServices 0 0 0 (mkMonetaryValue 0 0 0 0 0).

(** The four categories of the monetary breakdown before the filter, each
    with the sum the dashboard folds for it. *)
Definition categories (trees : list Tree.t) : list (string * R) :=
  [ ("Penyimpanan Karbon"%string,
     Dashboard.sumOver
       (fun tree => carbon (annualMonetaryValue (Tree.ecosystemServices tree))) trees);
    ("Manajemen Air Hujan"%string,
     Dashboard.sumOver
       (fun tree => stormwater (annualMonetaryValue (Tree.ecosystemServices tree))) trees);
    ("Kualitas Udara"%string,
     Dashboard.sumOver
       (fun tree => airQuality (annualMonetaryValue (Tree.ecosystemServices tree))) trees);
    ("Penghematan Energi"%string,
     Dashboard.sumOver
       (fun tree => energy (annualMonetaryValue (Tree.ecosystemServices tree))) trees) ].

(** A tree of positive diameter recorded as standing near a building. *)
Definition shadesBuilding (tree : Tree.t) : Prop :=
  Tree.proximityToBuilding tree = ProxNear /\ 0 < Tree.dbh tree.

(** A required input of the form is empty: the photo, the species, the
    diameter, the height, the latitude or the longitude. *)
Definition missingField (f : DataCollectionForm.Form) : Prop :=
  DataCollectionForm.noPhoto (DataCollectionForm.photo f) = true \/
  DataCollectionForm.species f = EmptyString \/
  DataCollectionForm.dbh f = EmptyString \/
  DataCollectionForm.height f = EmptyString \/
  DataCollectionForm.latitude f = EmptyString \/
  DataCollectionForm.longitude f = EmptyString.

(** * Properties *)

(** ** Carbon model *)

Lemma Math_pow_square (x : R) : 0 < x -> Js.Math_pow x 2 = x ^ 2.
Proof.
  intros Hx. unfold Js.Math_pow.
  replace 2 with (INR 2) by (simpl; lra).
  apply Rpower_pow. exact Hx.
Qed.

Lemma Math_pow_pos (x y : R) : 0 < Js.Math_pow x y.
Proof. unfold Js.Math_pow, Rpower. apply exp_pos. Qed.

Lemma calculateCarbonMetrics_degenerate (dbh height : R) :
  dbh <= 0 \/ height <= 0 ->
  calculateCarbonMetrics dbh height = mkCarbonMetrics 0 0 0.
Proof.
  intros H. unfold calculateCarbonMetrics.
  destruct (Rle_dec dbh 0) as [_ | Hd]; [reflexivity |].
  destruct (Rle_dec height 0) as [_ | Hh]; [reflexivity |].
  destruct H; contradiction.
Qed.

Lemma calculateCarbonMetrics_positive (dbh height : R) :
  0 < dbh -> 0 < height ->
  calculateCarbonMetrics dbh height =
    let b := 0.0673 * Js.Math_pow (0.6 * Js.Math_pow dbh 2 * height) 0.976 in
    mkCarbonMetrics b (b * 0.47) (b * 0.47 * 3.67).
Proof.
  intros Hd Hh. unfold calculateCarbonMetrics.
  destruct (Rle_dec dbh 0) as [Hd' | _]; [lra |].
  destruct (Rle_dec height 0) as [Hh' | _]; [lra |].
  reflexivity.
Qed.

(** ** Ecosystem service model *)

Lemma calculateEcosystemServices_degenerate (dbh : R) (p : ProximityToBuilding) :
  dbh <= 0 ->
  calculateEcosystemServices dbh p =
    mkEcosystemServices 0 0 0 (mkMonetaryValue 0 0 0 0 0).
Proof.
  intros H. unfold calculateEcosystemServices.
  destruct (Rle_dec dbh 0) as [_ | Hn]; [reflexivity | contradiction].
Qed.

Lemma calculateEcosystemServices_positive (dbh : R) (p : ProximityToBuilding) :
  0 < dbh ->
  calculateEcosystemServices dbh p =
    let leafArea := exp (-2.2 + 1.8 * ln dbh) in
    let e := match p with ProxNear => (10 + dbh * 0.25) * 16000 | _ => 0 end in
    let c := co2Sequestrated (calculateCarbonMetrics dbh (dbh * 0.5)) * (0.05 * 16000) in
    let s := leafArea * 180 * (0.002 * 16000) in
    let a := leafArea * 1.5 * (0.08 * 16000) in
    mkEcosystemServices (leafArea * 180) (leafArea * 1.5) e
      (mkMonetaryValue (c + s + a + e) c s a e).
Proof.
  intros H. unfold calculateEcosystemServices.
  destruct (Rle_dec dbh 0) as [Hn | _]; [lra |].
  destruct p; reflexivity.
Qed.

(** C7: for [dbh <= 0] and every proximity the result has every field 0,
    the monetary breakdown included; the function returns it and fails on
    no input. *)
Theorem calculateEcosystemServices_nonpositive_dbh
    (dbh : R) (p : ProximityToBuilding) :
  dbh <= 0 ->
  let r := calculateEcosystemServices dbh p in
  stormwaterInterceptedLiters r = 0 /\
  airPollutionRemovedGrams r = 0 /\
  energySavingsIDR r = 0 /\
  total (annualMonetaryValue r) = 0 /\
  carbon (annualMonetaryValue r) = 0 /\
  stormwater (annualMonetaryValue r) = 0 /\
  airQuality (annualMonetaryValue r) = 0 /\
  energy (annualMonetaryValue r) = 0.
Proof.
  intros H. rewrite (calculateEcosystemServices_degenerate dbh p H).
  cbn. repeat split; reflexivity.
Qed.

Lemma calculateEcosystemServices_nonpositive_dbh_witness :
  let r := calculateEcosystemServices (-3) ProxNear in
  stormwaterInterceptedLiters r = 0 /\
  airPollutionRemovedGrams r = 0 /\
  energySavingsIDR r = 0 /\
  total (annualMonetaryValue r) = 0 /\
  carbon (annualMonetaryValue r) = 0 /\
  stormwater (annualMonetaryValue r) = 0 /\
  airQuality (annualMonetaryValue r) = 0 /\
  energy (annualMonetaryValue r) = 0.
Proof.
  apply (calculateEcosystemServices_nonpositive_dbh (-3) ProxNear). lra.
Defined.

(** C2: for [dbh > 0] and every proximity, the carbon component of the
    monetary value is the CO2 of a second carbon computation at the height
    [dbh * 0.5], priced at [0.05 * 16000]; a record assembled for a tree of
    any recorded height carries that same figure. *)
Theorem carbon_value_priced_at_fallback_height
    (dbh : R) (p : ProximityToBuilding) :
  0 < dbh ->
  carbon (annualMonetaryValue (calculateEcosystemServices dbh p)) =
    co2Sequestrated (calculateCarbonMetrics dbh (dbh * 0.5)) * (0.05 * 16000)
  /\
  forall (newTreeData : NewTree.t) (now : Z) (st : App.State),
    NewTree.dbh newTreeData = dbh ->
    NewTree.proximityToBuilding newTreeData = p ->
    map (fun tree => carbon (annualMonetaryValue (Tree.ecosystemServices tree)))
        (firstn 1 (App.trees (App.handleAddTree newTreeData now st))) =
    [co2Sequestrated (calculateCarbonMetrics dbh (dbh * 0.5)) * (0.05 * 16000)].
Proof.
  intros Hd.
  assert (E : carbon (annualMonetaryValue (calculateEcosystemServices dbh p)) =
              co2Sequestrated (calculateCarbonMetrics dbh (dbh * 0.5)) * (0.05 * 16000)).
  { rewrite (calculateEcosystemServices_positive dbh p Hd). reflexivity. }
  split; [exact E |].
  intros nt now st Hdbh Hp.
  cbn [App.handleAddTree App.newTree App.trees firstn map Tree.ecosystemServices].
  rewrite Hdbh, Hp, E. reflexivity.
Qed.

Lemma carbon_value_priced_at_fallback_height_witness :
  carbon (annualMonetaryValue (calculateEcosystemServices 50 ProxFar)) =
    co2Sequestrated (calculateCarbonMetrics 50 (50 * 0.5)) * (0.05 * 16000)
  /\
  forall (newTreeData : NewTree.t) (now : Z) (st : App.State),
    NewTree.dbh newTreeData = 50 ->
    NewTree.proximityToBuilding newTreeData = ProxFar ->
    map (fun tree => carbon (annualMonetaryValue (Tree.ecosystemServices tree)))
        (firstn 1 (App.trees (App.handleAddTree newTreeData now st))) =
    [co2Sequestrated (calculateCarbonMetrics 50 (50 * 0.5)) * (0.05 * 16000)].
Proof.
  apply (carbon_value_priced_at_fallback_height 50 ProxFar). lra.
Defined.

(** C3: for every [dbh] and proximity the [total] of the monetary value is
    the sum [carbon + stormwater + airQuality + energy] of its components,
    and for [dbh <= 0] the five fields are 0. *)
Theorem annualMonetaryValue_total_is_sum (dbh : R) (p : ProximityToBuilding) :
  let v := annualMonetaryValue (calculateEcosystemServices dbh p) in
  total v = carbon v + stormwater v + airQuality v + energy v
  /\
  (dbh <= 0 -> v = mkMonetaryValue 0 0 0 0 0).
Proof.
  destruct (Rle_dec dbh 0) as [Hn | Hp].
  - rewrite (calculateEcosystemServices_degenerate dbh p Hn). cbn.
    split; [lra | reflexivity].
  - rewrite (calculateEcosystemServices_positive dbh p) by lra. cbn.
    split; [reflexivity | intros H; contradiction].
Qed.

Lemma annualMonetaryValue_total_is_sum_witness :
  let v := annualMonetaryValue (calculateEcosystemServices 0 ProxNear) in
  total v = carbon v + stormwater v + airQuality v + energy v /\
  v = mkMonetaryValue 0 0 0 0 0.
Proof.
  split.
  - apply (proj1 (annualMonetaryValue_total_is_sum 0 ProxNear)).
  - apply (proj2 (annualMonetaryValue_total_is_sum 0 ProxNear)). lra.
Defined.

(** C6: for [dbh > 0], proximity Far and proximity None give
    [energySavingsIDR = 0], proximity Near gives [(10 + 0.25 * dbh) * 16000];
    at [dbh = 50] with Near that is 360000. *)
Theorem energySavingsIDR_by_proximity (dbh : R) :
  0 < dbh ->
  energySavingsIDR (calculateEcosystemServices dbh ProxFar) = 0 /\
  energySavingsIDR (calculateEcosystemServices dbh ProxNone) = 0 /\
  energySavingsIDR (calculateEcosystemServices dbh ProxNear) =
    (10 + 0.25 * dbh) * 16000 /\
  energySavingsIDR (calculateEcosystemServices 50 ProxNear) = 360000.
Proof.
  intros Hd.
  rewrite !(calculateEcosystemServices_positive dbh _ Hd).
  rewrite (calculateEcosystemServices_positive 50 ProxNear) by lra.
  cbn. repeat split; lra.
Qed.

Lemma energySavingsIDR_by_proximity_witness :
  energySavingsIDR (calculateEcosystemServices 20 ProxFar) = 0 /\
  energySavingsIDR (calculateEcosystemServices 20 ProxNone) = 0 /\
  energySavingsIDR (calculateEcosystemServices 20 ProxNear) =
    (10 + 0.25 * 20) * 16000 /\
  energySavingsIDR (calculateEcosystemServices 50 ProxNear) = 360000.
Proof.
  apply (energySavingsIDR_by_proximity 20). lra.
Defined.

(** ** Record assembly *)

Lemma session_trees (calls : list (NewTree.t * Z)) (st : App.State) :
  App.trees (App.session calls st) =
    rev (map (fun call => App.newTree (fst call) (snd call)) calls) ++ App.trees st.
Proof.
  unfold App.session. revert st.
  induction calls as [| call calls IH]; intros st.
  - reflexivity.
  - cbn [fold_left map rev]. rewrite IH. cbn [App.handleAddTree App.trees].
    rewrite <- app_assoc. reflexivity.
Qed.

Lemma added_eq (calls : list (NewTree.t * Z)) (st : App.State) :
  App.added calls st =
    rev (map (fun call => App.newTree (fst call) (snd call)) calls).
Proof.
  unfold App.added. rewrite session_trees, firstn_app.
  rewrite length_rev, length_map, Nat.sub_diag. cbn [firstn].
  rewrite app_nil_r. apply firstn_all2.
  rewrite length_rev, length_map. apply le_n.
Qed.

Lemma added_ids (calls : list (NewTree.t * Z)) (st : App.State) :
  map Tree.id (App.added calls st) = rev (map snd calls).
Proof.
  rewrite added_eq, map_rev, map_map. f_equal.
Qed.

(** C5, as stated, fails: two calls of [handleAddTree] that read the same
    millisecond from [Date.now()] add two records with the same [id]. *)
Lemma same_millisecond_same_id :
  ~ NoDup (map Tree.id
             (App.added [sampleTree "Jati" 1714521600000;
                         sampleTree "Pinus" 1714521600000]
                        (App.mkState ViewForm []))).
Proof.
  rewrite added_ids. cbn. intros H.
  inversion H as [| x l Hin _]; subst. apply Hin. left. reflexivity.
Qed.

(** C5, amended: the identifier of every record a session adds is the clock
    reading of its call, newest first, so the identifiers are pairwise
    distinct exactly when the clock readings of the calls are. *)
Theorem added_ids_distinct_iff_clock_distinct
    (calls : list (NewTree.t * Z)) (st : App.State) :
  map Tree.id (App.added calls st) = rev (map snd calls)
  /\
  (NoDup (map Tree.id (App.added calls st)) <-> NoDup (map snd calls)).
Proof.
  split; [apply added_ids |].
  rewrite added_ids. split; intros H.
  - apply (Permutation_NoDup (Permutation_sym (Permutation_rev _)) H).
  - apply (Permutation_NoDup (Permutation_rev _) H).
Qed.

(** ** Portfolio summary *)

(** C9: for the empty collection every total of the summary is 0 and every
    breakdown sequence is empty; [stats] returns this record from its first
    branch. *)
Theorem stats_empty :
  let s := Dashboard.stats [] in
  Dashboard.totalTrees s = 0%nat /\
  Dashboard.totalCarbon s = 0 /\
  Dashboard.totalStormwater s = 0 /\
  Dashboard.totalPollution s = 0 /\
  Dashboard.totalMonetaryValue s = 0 /\
  Dashboard.speciesData s = [] /\
  Dashboard.monetaryBreakdown s = [] /\
  Dashboard.carbonByConditionData s = [].
Proof. cbn. repeat split; reflexivity. Qed.

(** *** Carbon by condition *)

Lemma truthy_false (x : R) : JsNumber.truthy x = false -> x = 0.
Proof.
  unfold JsNumber.truthy. destruct (Req_dec_T x 0) as [E | _]; [trivial | discriminate].
Qed.

Lemma setCondition_same (acc : Dashboard.CarbonByCondition) (c : TreeCondition) (v : R) :
  Dashboard.setCondition acc c v c = Some v.
Proof. unfold Dashboard.setCondition. destruct c; reflexivity. Qed.

Lemma setCondition_other (acc : Dashboard.CarbonByCondition) (c c' : TreeCondition) (v : R) :
  TreeCondition_eqb c c' = false ->
  Dashboard.setCondition acc c v c' = acc c'.
Proof. unfold Dashboard.setCondition. intros ->. reflexivity. Qed.

Lemma TreeCondition_eqb_eq (c c' : TreeCondition) :
  TreeCondition_eqb c c' = true <-> c = c'.
Proof. destruct c, c'; cbn; split; intros H; try reflexivity; discriminate. Qed.

Lemma addCarbon_slotValue (acc : Dashboard.CarbonByCondition) (tree : Tree.t)
    (c : TreeCondition) :
  slotValue (Dashboard.addCarbon acc tree c) =
    slotValue (acc c) +
    (if TreeCondition_eqb (Tree.condition tree) c
     then co2Sequestrated (Tree.carbon tree) else 0).
Proof.
  unfold Dashboard.addCarbon.
  set (c0 := Tree.condition tree).
  set (x := co2Sequestrated (Tree.carbon tree)).
  destruct (TreeCondition_eqb c0 c) eqn:E.
  - apply TreeCondition_eqb_eq in E. subst c.
    destruct (acc c0) as [v |] eqn:Hv; cbn [Dashboard.falsy].
    + destruct (JsNumber.truthy v) eqn:Ht; cbn [negb].
      * rewrite Hv, setCondition_same. reflexivity.
      * rewrite !setCondition_same. apply truthy_false in Ht. cbn. lra.
    + rewrite !setCondition_same. reflexivity.
  - destruct (Dashboard.falsy (acc c0)).
    + rewrite setCondition_same, !setCondition_other by exact E. lra.
    + destruct (acc c0) as [v |].
      * rewrite setCondition_other by exact E. lra.
      * lra.
Qed.

Lemma co2OfCondition_cons (c : TreeCondition) (tree : Tree.t) (trees : list Tree.t) :
  co2OfCondition c (tree :: trees) =
    (if TreeCondition_eqb (Tree.condition tree) c
     then co2Sequestrated (Tree.carbon tree) else 0)
    + co2OfCondition c trees.
Proof.
  unfold co2OfCondition. cbn [filter].
  destruct (TreeCondition_eqb (Tree.condition tree) c); cbn [map fold_right]; lra.
Qed.

Lemma fold_addCarbon_slotValue (trees : list Tree.t)
    (acc : Dashboard.CarbonByCondition) (c : TreeCondition) :
  slotValue (fold_left Dashboard.addCarbon trees acc c) =
    slotValue (acc c) + co2OfCondition c trees.
Proof.
  revert acc. induction trees as [| tree trees IH]; intros acc.
  - cbn. lra.
  - cbn [fold_left]. rewrite IH, addCarbon_slotValue, co2OfCondition_cons. lra.
Qed.

Lemma carbonByCondition_slotValue (trees : list Tree.t) (c : TreeCondition) :
  slotValue (Dashboard.carbonByCondition trees c) = co2OfCondition c trees.
Proof.
  unfold Dashboard.carbonByCondition. rewrite fold_addCarbon_slotValue. cbn. lra.
Qed.

Lemma nearestHundredth_eq (x : R) (n : Z) :
  IZR n - / 2 <= x * 100 < IZR n + / 2 ->
  JsNumber.nearestHundredth x = n.
Proof.
  intros [Hlo Hhi]. unfold JsNumber.nearestHundredth.
  symmetry. apply Int_part_spec. lra.
Qed.

Lemma parseFloat_toFixed2_eq (x : R) (n : Z) :
  0 <= x < 1e21 ->
  IZR n - / 2 <= x * 100 < IZR n + / 2 ->
  JsNumber.parseFloat_toFixed2 x = IZR n / 100.
Proof.
  intros [H0 H1] Hn. unfold JsNumber.parseFloat_toFixed2.
  destruct (Rlt_dec x 0) as [Hneg | _]; [lra |].
  destruct (Rle_dec 1e21 x) as [Hbig | _]; [lra |].
  rewrite (nearestHundredth_eq x n Hn). reflexivity.
Qed.

Lemma parseFloat_toFixed2_0 : JsNumber.parseFloat_toFixed2 0 = 0.
Proof. rewrite (parseFloat_toFixed2_eq 0 0); lra. Qed.


Lemma gt0_false (x : R) : x <= 0 -> JsNumber.gt0 x = false.
Proof.
  intros H. unfold JsNumber.gt0. destruct (Rlt_dec 0 x); [lra | reflexivity].
Qed.

Lemma carbonByCondition_entry (trees : list Tree.t) (c : TreeCondition) :
  match Dashboard.carbonByCondition trees c with
  | Some v => if JsNumber.truthy v then JsNumber.parseFloat_toFixed2 v else 0
  | None => 0
  end = JsNumber.parseFloat_toFixed2 (co2OfCondition c trees).
Proof.
  rewrite <- carbonByCondition_slotValue.
  destruct (Dashboard.carbonByCondition trees c) as [v |]; cbn [slotValue].
  - destruct (JsNumber.truthy v) eqn:Ht; [reflexivity |].
    apply truthy_false in Ht. subst v. symmetry. apply parseFloat_toFixed2_0.
  - symmetry. apply parseFloat_toFixed2_0.
Qed.

Lemma carbonByConditionData_eq (trees : list Tree.t) :
  Dashboard.carbonByConditionData (Dashboard.stats trees) =
    filter (fun item => JsNumber.gt0 (snd item))
      (map (fun c => (c, JsNumber.parseFloat_toFixed2 (co2OfCondition c trees)))
           [HEALTHY; DAMAGED; DEAD]).
Proof.
  destruct trees as [| tree trees].
  - cbn [Dashboard.stats Dashboard.carbonByConditionData map filter snd].
    unfold co2OfCondition. cbn [filter map fold_right].
    rewrite parseFloat_toFixed2_0, (gt0_false 0) by lra. reflexivity.
  - cbn [Dashboard.stats Dashboard.carbonByConditionData Dashboard.conditionOrder map].
    rewrite !carbonByCondition_entry. reflexivity.
Qed.


(** The same happens to a record the application assembles itself: the
    sapling sequesters a positive amount below 0.005 kg. *)
Lemma sapling_co2_small :
  0 < co2Sequestrated (calculateCarbonMetrics 0.1 0.1) < 0.005.
Proof.
  rewrite (calculateCarbonMetrics_positive 0.1 0.1) by lra.
  cbn [co2Sequestrated]. rewrite (Math_pow_square 0.1) by lra.
  set (x := 0.6 * 0.1 ^ 2 * 0.1).
  assert (Hx : x = 0.0006) by (unfold x; lra).
  pose proof (Math_pow_pos x 0.976) as Hpos.
  assert (Hle : Js.Math_pow x 0.976 < 0.025).
  { unfold Js.Math_pow. replace 0.976 with (/ 2 + 0.476) by lra.
    rewrite Rpower_plus, Rpower_sqrt by lra.
    assert (H1 : Rpower x 0.476 <= 1).
    { assert (E : Rpower 1 0.476 = 1)
        by (unfold Rpower; rewrite ln_1, Rmult_0_r; apply exp_0).
      rewrite <- E. apply Rle_Rpower_l; lra. }
    assert (H2 : sqrt x < 0.025).
    { rewrite <- (sqrt_square 0.025) by lra. apply sqrt_lt_1_alt. lra. }
    pose proof (sqrt_pos x) as H3.
    pose proof (exp_pos (0.476 * ln x)) as H4. fold (Rpower x 0.476) in H4.
    nra. }
  split; nra.
Qed.

Lemma sapling_without_entry :
  let trees :=
    App.trees (App.handleAddTree sapling 1714521600000 (App.mkState ViewForm [])) in
  0 < co2OfCondition HEALTHY trees /\
  Dashboard.carbonByConditionData (Dashboard.stats trees) = [].
Proof.
  cbn zeta. cbn [App.handleAddTree App.trees].
  rewrite carbonByConditionData_eq. unfold co2OfCondition.
  cbn [filter map fold_right snd App.newTree
       sapling NewTree.dbh NewTree.height NewTree.condition Tree.condition
       Tree.carbon TreeCondition_eqb].
  rewrite Rplus_0_r.
  destruct sapling_co2_small as [Hlo Hhi].
  split; [exact Hlo |].
  rewrite parseFloat_toFixed2_0.
  rewrite (parseFloat_toFixed2_eq _ 0) by lra.
  rewrite (gt0_false (0 / 100)) by lra.
  rewrite (gt0_false 0) by lra. reflexivity.
Qed.



(** *** Sorting *)

Section SortFacts.
Context {A : Type}.
Variable after : A -> A -> bool.

Lemma insert_Permutation (a : A) (l : list A) :
  Permutation (JsArray.insert after a l) (a :: l).
Proof.
  induction l as [| b l IH]; cbn.
  - apply Permutation_refl.
  - destruct (after a b).
    + apply perm_trans with (b :: a :: l).
      * apply perm_skip. exact IH.
      * apply perm_swap.
    + apply Permutation_refl.
Qed.

Lemma sort_Permutation (l : list A) : Permutation (JsArray.sort after l) l.
Proof.
  induction l as [| a l IH]; cbn.
  - apply perm_nil.
  - apply perm_trans with (a :: JsArray.sort after l).
    + apply insert_Permutation.
    + apply perm_skip. exact IH.
Qed.

(** Sortedness, for elements on which [after] compares a numeric key. *)
Variable key : A -> nat.
Variable P : A -> Prop.
Hypothesis after_key :
  forall a b, P a -> P b -> after a b = (key a <? key b)%nat.

Lemma insert_sorted (a : A) (l : list A) :
  P a -> Forall P l ->
  StronglySorted (fun x y => (key y <= key x)%nat) l ->
  StronglySorted (fun x y => (key y <= key x)%nat) (JsArray.insert after a l).
Proof.
  intros Pa Pl Hs. induction Hs as [| b l Hs IH Hb]; cbn.
  - constructor; constructor.
  - inversion Pl as [| ? ? Pb Pl']; subst.
    rewrite (after_key a b Pa Pb).
    destruct (Nat.ltb_spec (key a) (key b)) as [Hlt | Hge].
    + constructor; [apply IH; exact Pl' |].
      apply (Permutation_Forall (Permutation_sym (insert_Permutation a l))).
      constructor; [lia | exact Hb].
    + constructor; [constructor; assumption |].
      constructor; [exact Hge |].
      apply Forall_impl with (P := fun y => (key y <= key b)%nat); [| exact Hb].
      intros c Hc. lia.
Qed.

Lemma sort_sorted (l : list A) :
  Forall P l ->
  StronglySorted (fun x y => (key y <= key x)%nat) (JsArray.sort after l).
Proof.
  induction l as [| a l IH]; intros Pl; cbn.
  - constructor.
  - inversion Pl as [| ? ? Pa Pl']; subst.
    apply insert_sorted; [exact Pa | | apply IH; exact Pl'].
    apply (Permutation_Forall (Permutation_sym (sort_Permutation l))). exact Pl'.
Qed.

End SortFacts.

(** *** Species count *)

Lemma getOwn_set_same (o : JsObject.t) (k : string) (v : JsObject.value) :
  JsObject.getOwn (JsObject.set o k v) k = Some v.
Proof.
  induction o as [| [k0 w] o IH]; cbn.
  - rewrite String.eqb_refl. reflexivity.
  - destruct (String.eqb k0 k) eqn:E; cbn; rewrite E; [reflexivity | exact IH].
Qed.

Lemma getOwn_set_other (o : JsObject.t) (k k' : string) (v : JsObject.value) :
  k <> k' ->
  JsObject.getOwn (JsObject.set o k v) k' = JsObject.getOwn o k'.
Proof.
  intros Hne. induction o as [| [k0 w] o IH]; cbn.
  - apply String.eqb_neq in Hne. rewrite Hne. reflexivity.
  - destruct (String.eqb k0 k) eqn:E; cbn.
    + apply String.eqb_eq in E. subst k0.
      apply String.eqb_neq in Hne. rewrite Hne. reflexivity.
    + rewrite IH. reflexivity.
Qed.

Lemma getOwn_None (o : JsObject.t) (k : string) :
  JsObject.getOwn o k = None -> ~ In k (map fst o).
Proof.
  induction o as [| [k0 w] o IH]; cbn; intros H.
  - intros [].
  - destruct (String.eqb k0 k) eqn:E; [discriminate |].
    apply String.eqb_neq in E. intros [H' | H']; [contradiction | exact (IH H H')].
Qed.

Lemma getOwn_In (o : JsObject.t) (k : string) (v : JsObject.value) :
  JsObject.getOwn o k = Some v -> In (k, v) o.
Proof.
  induction o as [| [k0 w] o IH]; cbn; intros H.
  - discriminate.
  - destruct (String.eqb k0 k) eqn:E.
    + apply String.eqb_eq in E. injection H as ->. left. rewrite E. reflexivity.
    + right. apply IH. exact H.
Qed.

Lemma In_getOwn (o : JsObject.t) (k : string) (v : JsObject.value) :
  NoDup (map fst o) -> In (k, v) o -> JsObject.getOwn o k = Some v.
Proof.
  induction o as [| [k0 w] o IH]; cbn; intros Hnd Hin.
  - contradiction.
  - inversion Hnd as [| ? ? Hnotin Hnd']; subst.
    destruct Hin as [Heq | Hin].
    + injection Heq as -> ->. rewrite String.eqb_refl. reflexivity.
    + destruct (String.eqb k0 k) eqn:E.
      * apply String.eqb_eq in E. subst k0. exfalso. apply Hnotin.
        apply (in_map fst) in Hin. exact Hin.
      * apply IH; assumption.
Qed.

Lemma set_keys (o : JsObject.t) (k : string) (v : JsObject.value) :
  map fst (JsObject.set o k v) =
    match JsObject.getOwn o k with
    | Some _ => map fst o
    | None => map fst o ++ [k]
    end.
Proof.
  induction o as [| [k0 w] o IH]; cbn.
  - reflexivity.
  - destruct (String.eqb k0 k) eqn:E; cbn.
    + reflexivity.
    + rewrite IH. destruct (JsObject.getOwn o k); reflexivity.
Qed.

Lemma set_NoDup (o : JsObject.t) (k : string) (v : JsObject.value) :
  NoDup (map fst o) -> NoDup (map fst (JsObject.set o k v)).
Proof.
  intros Hnd. rewrite set_keys.
  destruct (JsObject.getOwn o k) eqn:E; [exact Hnd |].
  apply (Permutation_NoDup (l := k :: map fst o)).
  - apply Permutation_cons_append.
  - constructor; [apply getOwn_None; exact E | exact Hnd].
Qed.

Lemma ordinaryKey_spec (key : string) :
  ordinaryKey key = true ->
  JsObject.inherited key = false /\ String.eqb key "__proto__" = false.
Proof.
  unfold ordinaryKey. intros H. apply andb_prop in H as [H1 H2].
  split; [destruct (JsObject.inherited key) | destruct (String.eqb key "__proto__")];
    (reflexivity || discriminate).
Qed.

Lemma increment_counted (o : JsObject.t) (l : list string) (s : string) :
  ordinaryKey s = true -> counted o l ->
  counted (JsObject.increment o s) (l ++ [s]).
Proof.
  intros Hs [Hnd Hget]. apply ordinaryKey_spec in Hs as [Hinh Hproto].
  unfold JsObject.increment. rewrite Hproto.
  assert (Hcount : forall k,
             count_occ string_dec (l ++ [s]) k =
               (count_occ string_dec l k + if string_dec s k then 1 else 0)%nat).
  { intros k. rewrite count_occ_app. cbn. destruct (string_dec s k); reflexivity. }
  pose proof (Hget s) as Hs.
  destruct (Nat.eqb_spec (count_occ string_dec l s) 0) as [Hz | Hnz].
  - rewrite Hs, Hinh. split; [apply set_NoDup; exact Hnd |].
    intros k. rewrite Hcount. destruct (string_dec s k) as [<- | Hne].
    + rewrite getOwn_set_same, Hz. reflexivity.
    + rewrite getOwn_set_other, Hget, Nat.add_0_r by exact Hne. reflexivity.
  - rewrite Hs. split; [apply set_NoDup; exact Hnd |].
    intros k. rewrite Hcount. destruct (string_dec s k) as [<- | Hne].
    + rewrite getOwn_set_same.
      destruct (Nat.eqb_spec (count_occ string_dec l s + 1) 0) as [H0 | _];
        [lia | reflexivity].
    + rewrite getOwn_set_other, Hget, Nat.add_0_r by exact Hne. reflexivity.
Qed.

Lemma fold_increment_counted (ss : list string) :
  Forall (fun s => ordinaryKey s = true) ss ->
  forall (o : JsObject.t) (l : list string),
    counted o l -> counted (fold_left JsObject.increment ss o) (l ++ ss).
Proof.
  induction 1 as [| s ss Hs _ IH]; intros o l Ho; cbn [fold_left].
  - rewrite app_nil_r. exact Ho.
  - replace (l ++ s :: ss) with ((l ++ [s]) ++ ss)
      by (rewrite <- app_assoc; reflexivity).
    apply IH. apply increment_counted; assumption.
Qed.

Lemma speciesCount_fold (trees : list Tree.t) (o : JsObject.t) :
  fold_left (fun acc tree => JsObject.increment acc (Tree.species tree)) trees o =
    fold_left JsObject.increment (map Tree.species trees) o.
Proof.
  revert o. induction trees as [| tree trees IH]; intros o; cbn.
  - reflexivity.
  - apply IH.
Qed.

Lemma speciesCount_counted (trees : list Tree.t) :
  Forall (fun tree => ordinaryKey (Tree.species tree) = true) trees ->
  counted (Dashboard.speciesCount trees) (map Tree.species trees).
Proof.
  intros H. unfold Dashboard.speciesCount. rewrite speciesCount_fold.
  apply (fold_increment_counted (map Tree.species trees)) with (l := []).
  - apply Forall_map. exact H.
  - split; [constructor | intros k; reflexivity].
Qed.

Lemma filter_partition_Permutation {A : Type} (f : A -> bool) (l : list A) :
  Permutation (filter f l ++ filter (fun a => negb (f a)) l) l.
Proof.
  induction l as [| a l IH]; cbn.
  - apply perm_nil.
  - destruct (f a); cbn.
    + apply perm_skip. exact IH.
    + apply Permutation_sym, Permutation_cons_app, Permutation_sym. exact IH.
Qed.

Lemma entries_Permutation (o : JsObject.t) : Permutation (JsObject.entries o) o.
Proof.
  unfold JsObject.entries.
  apply perm_trans
    with (filter JsObject.isIndex o ++ filter (fun e => negb (JsObject.isIndex e)) o).
  - apply Permutation_app_tail. apply sort_Permutation.
  - apply filter_partition_Permutation.
Qed.

Lemma stats_speciesData (trees : list Tree.t) :
  Dashboard.speciesData (Dashboard.stats trees) =
    JsArray.sort Dashboard.valueAfter
      (JsObject.entries (Dashboard.speciesCount trees)).
Proof. destruct trees; reflexivity. Qed.

Lemma speciesData_Permutation (trees : list Tree.t) :
  Permutation (Dashboard.speciesData (Dashboard.stats trees))
              (Dashboard.speciesCount trees).
Proof.
  rewrite stats_speciesData.
  apply perm_trans with (JsObject.entries (Dashboard.speciesCount trees)).
  - apply sort_Permutation.
  - apply entries_Permutation.
Qed.

(** Away from the keys [{}] inherits, [speciesData] is what C8 describes:
    one entry per distinct species, carrying the number of trees of that
    species, the entries in descending order of that number. *)
Lemma speciesData_counts (trees : list Tree.t) :
  Forall (fun tree => ordinaryKey (Tree.species tree) = true) trees ->
  let sd := Dashboard.speciesData (Dashboard.stats trees) in
  NoDup (map fst sd) /\
  (forall name v,
      In (name, v) sd <->
      In name (map Tree.species trees) /\
      v = JsObject.Num (occurrences name trees)) /\
  StronglySorted (fun a b => (countOf b <= countOf a)%nat) sd.
Proof.
  intros Hord sd.
  destruct (speciesCount_counted trees Hord) as [Hnd Hget].
  pose proof (speciesData_Permutation trees) as Hperm. fold sd in Hperm.
  assert (Hin : forall name v,
             In (name, v) (Dashboard.speciesCount trees) <->
             In name (map Tree.species trees) /\
             v = JsObject.Num (occurrences name trees)).
  { intros name v. unfold occurrences. split.
    - intros H. apply (In_getOwn _ _ _ Hnd) in H. rewrite Hget in H.
      destruct (Nat.eqb_spec (count_occ string_dec (map Tree.species trees) name) 0)
        as [Hz | Hnz]; [discriminate |].
      injection H as <-. split; [| reflexivity].
      apply (count_occ_In string_dec). lia.
    - intros [Hname ->]. apply getOwn_In. rewrite Hget.
      apply (count_occ_In string_dec) in Hname.
      destruct (Nat.eqb_spec (count_occ string_dec (map Tree.species trees) name) 0)
        as [Hz | Hnz]; [lia | reflexivity]. }
  split; [| split].
  - apply (Permutation_NoDup (l := map fst (Dashboard.speciesCount trees)));
      [| exact Hnd].
    apply Permutation_map, Permutation_sym, Hperm.
  - intros name v. rewrite <- Hin. split; intros H.
    + apply (Permutation_in _ Hperm H).
    + apply (Permutation_in _ (Permutation_sym Hperm) H).
  - unfold sd. rewrite stats_speciesData.
    apply (sort_sorted Dashboard.valueAfter countOf
             (fun e => exists n, snd e = JsObject.Num n)).
    + intros a b [m Ha] [n Hb]. unfold Dashboard.valueAfter, countOf.
      rewrite Ha, Hb. reflexivity.
    + apply (Permutation_Forall (Permutation_sym (entries_Permutation _))).
      apply Forall_forall. intros [name v] H. apply Hin in H as [_ ->].
      eexists. reflexivity.
Qed.

Lemma speciesData_counts_example :
  Dashboard.speciesData
    (Dashboard.stats [storedTree "Jati" HEALTHY 12.34;
                      storedTree "Pinus" DAMAGED 3.5;
                      storedTree "Jati" DEAD 0.2]) =
  [("Jati"%string, JsObject.Num 2); ("Pinus"%string, JsObject.Num 1)].
Proof. rewrite stats_speciesData. vm_compute. reflexivity. Qed.

(** C8 at the species name [constructor]: [{}] inherits a property of that
    name, so the first read finds the function [Object], [+ 1] makes a
    string of it, and the entry carries that string where the count 1 is
    due. *)
Theorem speciesData_inherited_key :
  Dashboard.speciesData
    (Dashboard.stats [storedTree "constructor" HEALTHY 12.34]) =
  [("constructor"%string, JsObject.Str "constructor" 1)]
  /\ occurrences "constructor" [storedTree "constructor" HEALTHY 12.34] = 1%nat.
Proof.
  split.
  - rewrite stats_speciesData. vm_compute. reflexivity.
  - vm_compute. reflexivity.
Qed.

(** ** The calculators on binary64 numbers *)

Section Binary64Properties.
Import Floats.
Local Open Scope float_scope.

Lemma binary_round_aux_not_negative (mx ex : Z) (lx : location) :
  SFltb (binary_round_aux prec emax false mx ex lx) (S754_zero false) = false.
Proof.
  unfold binary_round_aux.
  destruct (shr_fexp prec emax mx ex lx) as [mrs' e'].
  destruct (shr_fexp prec emax _ e' loc_Exact) as [mrs'' e''].
  destruct (shr_m mrs''); [reflexivity | | reflexivity].
  destruct (Z.leb e'' (emax - prec)); reflexivity.
Qed.

Lemma mul_not_negative (x y : float) :
  (x <? 0) = false -> (y <? 0) = false -> (x * y <? 0) = false.
Proof.
  rewrite !ltb_spec, mul_spec.
  change (Prim2SF 0) with (S754_zero false).
  destruct (Prim2SF x) as [sx | sx | | sx mx ex];
    destruct (Prim2SF y) as [sy | sy | | sy my ey]; cbn;
    try reflexivity; try discriminate;
    try (destruct sx; try discriminate); try (destruct sy; try discriminate);
    try reflexivity; intros _ _.
  apply binary_round_aux_not_negative.
Qed.

Lemma positive_not_leb (x : float) : (0 <? x) = true -> (x <=? 0) = false.
Proof.
  rewrite ltb_spec, leb_spec. change (Prim2SF 0) with (S754_zero false).
  destruct (Prim2SF x) as [s | s | | s m e]; cbn; try discriminate;
    destruct s; cbn; try discriminate; reflexivity.
Qed.

Lemma positive_not_negative (x : float) : (0 <? x) = true -> (x <? 0) = false.
Proof.
  rewrite !ltb_spec. change (Prim2SF 0) with (S754_zero false).
  destruct (Prim2SF x) as [s | s | | s m e]; cbn; try discriminate;
    destruct s; cbn; try discriminate; reflexivity.
Qed.

Lemma sampleMath_powKeepsSign : Binary64.powKeepsSign Binary64.sampleMath.
Proof.
  intros x y _ _. cbn [Binary64.Math_pow Binary64.sampleMath].
  destruct ((x =? 50) && (y =? 2)); [reflexivity |].
  destruct ((x =? 37500) && (y =? 0.976)); [reflexivity |].
  destruct ((x =? 1e-200) && (y =? 2)); [reflexivity |].
  destruct ((x =? 0) && (y =? 0.976)); reflexivity.
Qed.

Lemma sampleMath_underflowsAtTiny : Binary64.underflowsAtTiny Binary64.sampleMath.
Proof. split; reflexivity. Qed.


(** On every engine whose [Math.pow] has the two values of
    [underflowsAtTiny], the tree of [1e-200] by [1e-200] gets the all-zero
    record from the formula branch. *)
Lemma tiny_tree_any_engine (M : Binary64.MathObject) :
  Binary64.underflowsAtTiny M ->
  Binary64.calculateCarbonMetrics M 1e-200 1e-200 = Binary64.mkCarbonMetrics 0 0 0.
Proof.
  intros [H1 H2]. unfold Binary64.calculateCarbonMetrics.
  change ((1e-200 <=? 0) || (1e-200 <=? 0)) with false. cbv iota.
  rewrite H1.
  change (Binary64.WOOD_DENSITY * 0 * 1e-200) with 0. rewrite H2. reflexivity.
Qed.

(** C1, as stated: with [dbh = height = 1e-200], both positive, the
    returned biomass is 0, not a positive number: [Math.pow(1e-200, 2)]
    underflows to 0 and the rest of the formula keeps the 0. *)
Lemma tiny_tree_has_zero_biomass :
  Binary64.underflowsAtTiny Binary64.sampleMath /\
  (0 <? 1e-200) = true /\
  Binary64.calculateCarbonMetrics Binary64.sampleMath 1e-200 1e-200 =
    Binary64.mkCarbonMetrics 0 0 0 /\
  (0 <? Binary64.biomass
          (Binary64.calculateCarbonMetrics Binary64.sampleMath 1e-200 1e-200)) = false.
Proof.
  split; [exact sampleMath_underflowsAtTiny |].
  split; [reflexivity |].
  rewrite (tiny_tree_any_engine Binary64.sampleMath sampleMath_underflowsAtTiny).
  split; reflexivity.
Qed.

(** C1, amended: for [dbh > 0] and [height > 0] the three metrics are the
    binary64 results of [0.0673 * Math.pow(0.6 * Math.pow(dbh, 2) * height,
    0.976)], [biomass * 0.47] and [carbonStored * 3.67], and the biomass is
    never negative (it can be 0, by underflow); for [dbh <= 0] or
    [height <= 0] all three are 0. *)
Theorem calculateCarbonMetrics_binary64
    (M : Binary64.MathObject) (dbh height : float) :
  ((0 <? dbh) = true -> (0 <? height) = true ->
     let m := Binary64.calculateCarbonMetrics M dbh height in
     Binary64.biomass m =
       0.0673 * Binary64.Math_pow M (0.6 * Binary64.Math_pow M dbh 2 * height) 0.976 /\
     Binary64.carbonStored m = Binary64.biomass m * 0.47 /\
     Binary64.co2Sequestrated m = Binary64.carbonStored m * 3.67 /\
     (Binary64.powKeepsSign M -> (Binary64.biomass m <? 0) = false))
  /\
  ((dbh <=? 0) = true \/ (height <=? 0) = true ->
     Binary64.calculateCarbonMetrics M dbh height = Binary64.mkCarbonMetrics 0 0 0).
Proof.
  split.
  - intros Hd Hh. unfold Binary64.calculateCarbonMetrics.
    rewrite (positive_not_leb dbh Hd), (positive_not_leb height Hh).
    cbn [orb Binary64.biomass Binary64.carbonStored Binary64.co2Sequestrated].
    repeat split.
    intros HM.
    apply mul_not_negative; [reflexivity |].
    apply HM; [| reflexivity].
    apply mul_not_negative; [| exact (positive_not_negative height Hh)].
    apply mul_not_negative; [reflexivity |].
    apply HM; [exact (positive_not_negative dbh Hd) | reflexivity].
  - intros H. unfold Binary64.calculateCarbonMetrics.
    destruct H as [-> | ->]; [reflexivity | rewrite orb_true_r; reflexivity].
Qed.

Lemma calculateCarbonMetrics_binary64_witness :
  (let m := Binary64.calculateCarbonMetrics Binary64.sampleMath 50 25 in
   Binary64.biomass m = 1960.0609732467235 /\
   Binary64.carbonStored m = 921.22865742596 /\
   Binary64.co2Sequestrated m = 3380.909172753273 /\
   (Binary64.biomass m <? 0) = false)
  /\
  Binary64.calculateCarbonMetrics Binary64.sampleMath 0 25 =
    Binary64.mkCarbonMetrics 0 0 0.
Proof.
  split.
  - destruct (proj1 (calculateCarbonMetrics_binary64 Binary64.sampleMath 50 25)
                eq_refl eq_refl) as (H1 & H2 & H3 & H4).
    cbv zeta.
    split; [exact H1 | split; [exact H2 | split; [exact H3 |]]].
    exact (H4 sampleMath_powKeepsSign).
  - apply (proj2 (calculateCarbonMetrics_binary64 Binary64.sampleMath 0 25)).
    left. reflexivity.
Defined.





End Binary64Properties.

(** * Further properties of the models *)

(** ** Carbon model *)

Lemma exp_monotone (x y : R) : x <= y -> exp x <= exp y.
Proof.
  intros [Hlt | ->]; [left; apply exp_increasing; exact Hlt | right; reflexivity].
Qed.

Lemma ln_monotone (x y : R) : 0 < x -> x <= y -> ln x <= ln y.
Proof.
  intros Hx [Hlt | ->]; [left; apply ln_increasing; assumption | right; reflexivity].
Qed.

Lemma biomass_nonneg (dbh height : R) :
  0 <= biomass (calculateCarbonMetrics dbh height).
Proof.
  destruct (Rle_dec dbh 0) as [Hd | Hd].
  - rewrite calculateCarbonMetrics_degenerate by (left; exact Hd). cbn. lra.
  - destruct (Rle_dec height 0) as [Hh | Hh].
    + rewrite calculateCarbonMetrics_degenerate by (right; exact Hh). cbn. lra.
    + rewrite calculateCarbonMetrics_positive by lra. cbn [biomass].
      pose proof (Math_pow_pos (0.6 * Js.Math_pow dbh 2 * height) 0.976). lra.
Qed.

Lemma co2_of_biomass (dbh height : R) :
  let m := calculateCarbonMetrics dbh height in
  carbonStored m = 0.47 * biomass m /\ co2Sequestrated m = 1.7249 * biomass m.
Proof.
  destruct (Rle_dec dbh 0) as [Hd | Hd].
  - rewrite calculateCarbonMetrics_degenerate by (left; exact Hd). cbn. lra.
  - destruct (Rle_dec height 0) as [Hh | Hh].
    + rewrite calculateCarbonMetrics_degenerate by (right; exact Hh). cbn. lra.
    + rewrite calculateCarbonMetrics_positive by lra. cbn. lra.
Qed.

Lemma biomass_monotone (d1 h1 d2 h2 : R) :
  d1 <= d2 -> h1 <= h2 ->
  biomass (calculateCarbonMetrics d1 h1) <= biomass (calculateCarbonMetrics d2 h2).
Proof.
  intros Hd Hh.
  destruct (Rle_dec d1 0) as [Hd1 | Hd1].
  { rewrite (calculateCarbonMetrics_degenerate d1 h1) by (left; exact Hd1).
    apply biomass_nonneg. }
  destruct (Rle_dec h1 0) as [Hh1 | Hh1].
  { rewrite (calculateCarbonMetrics_degenerate d1 h1) by (right; exact Hh1).
    apply biomass_nonneg. }
  rewrite !calculateCarbonMetrics_positive by lra. cbn [biomass].
  rewrite !Math_pow_square by lra.
  assert (H : Js.Math_pow (0.6 * d1 ^ 2 * h1) 0.976 <=
              Js.Math_pow (0.6 * d2 ^ 2 * h2) 0.976).
  { unfold Js.Math_pow. apply Rle_Rpower_l; [lra |].
    assert (0 < d1 ^ 2) by nra. assert (d1 ^ 2 <= d2 ^ 2) by nra.
    split; nra. }
  lra.
Qed.




(** ** Ecosystem service model *)

Lemma leafArea_pos (dbh : R) : 0 < exp (-2.2 + 1.8 * ln dbh).
Proof. apply exp_pos. Qed.

Lemma co2_nonneg (dbh height : R) :
  0 <= co2Sequestrated (calculateCarbonMetrics dbh height).
Proof.
  pose proof (biomass_nonneg dbh height).
  destruct (co2_of_biomass dbh height) as [_ E]. cbn zeta in E. lra.
Qed.

Lemma services_nonneg (dbh : R) (p : ProximityToBuilding) :
  let r := calculateEcosystemServices dbh p in
  0 <= stormwaterInterceptedLiters r /\
  0 <= airPollutionRemovedGrams r /\
  0 <= energySavingsIDR r /\
  0 <= total (annualMonetaryValue r) /\
  0 <= carbon (annualMonetaryValue r) /\
  0 <= stormwater (annualMonetaryValue r) /\
  0 <= airQuality (annualMonetaryValue r) /\
  0 <= energy (annualMonetaryValue r).
Proof.
  destruct (Rle_dec dbh 0) as [Hn | Hp].
  - rewrite (calculateEcosystemServices_degenerate dbh p Hn). cbn.
    repeat split; lra.
  - rewrite (calculateEcosystemServices_positive dbh p) by lra. cbn.
    pose proof (leafArea_pos dbh) as HL.
    pose proof (co2_nonneg dbh (dbh * 0.5)) as HC.
    assert (HE : 0 <= match p with
                      | ProxNear => (10 + dbh * 0.25) * 16000
                      | _ => 0
                      end) by (destruct p; lra).
    repeat split; try lra; try nra.
Qed.

(** Every field of the result of [calculateEcosystemServices] is
    non-negative, on every input. *)
Theorem ecosystem_services_nonnegative (dbh : R) (p : ProximityToBuilding) :
  let r := calculateEcosystemServices dbh p in
  0 <= stormwaterInterceptedLiters r /\
  0 <= airPollutionRemovedGrams r /\
  0 <= energySavingsIDR r /\
  0 <= total (annualMonetaryValue r) /\
  0 <= carbon (annualMonetaryValue r) /\
  0 <= stormwater (annualMonetaryValue r) /\
  0 <= airQuality (annualMonetaryValue r) /\
  0 <= energy (annualMonetaryValue r).
Proof.
  destruct (Rle_dec dbh 0) as [Hn | Hp].
  - rewrite (calculateEcosystemServices_degenerate dbh p Hn). cbn.
    repeat split; lra.
  - rewrite (calculateEcosystemServices_positive dbh p) by lra. cbn.
    pose proof (leafArea_pos dbh) as HL.
    pose proof (co2_nonneg dbh (dbh * 0.5)) as HC.
    assert (HE : 0 <= match p with
                      | ProxNear => (10 + dbh * 0.25) * 16000
                      | _ => 0
                      end) by (destruct p; lra).
    repeat split; try lra; try nra.
Qed.

(** The energy saving is non-zero exactly for a tree of positive diameter
    near a building, and is then at least 160000. *)
Theorem energy_nonzero_iff_near (dbh : R) (p : ProximityToBuilding) :
  (energySavingsIDR (calculateEcosystemServices dbh p) <> 0 <->
   p = ProxNear /\ 0 < dbh)
  /\
  (energySavingsIDR (calculateEcosystemServices dbh p) <> 0 ->
   160000 <= energySavingsIDR (calculateEcosystemServices dbh p)).
Proof.
  destruct (Rle_dec dbh 0) as [Hn | Hp].
  - rewrite (calculateEcosystemServices_degenerate dbh p Hn). cbn.
    split; [split |]; intros H; lra.
  - rewrite (calculateEcosystemServices_positive dbh p) by lra. cbn.
    destruct p; (split; [split |]); intros H; try lra; try (split; [reflexivity | lra]);
      try (destruct H as [H _]; discriminate).
Qed.

(** Proximity bears on the energy figure alone: Far gives the very result
    of None, and Near differs from None in [energySavingsIDR], in the
    [energy] component and, by that amount, in [total]. *)
Theorem proximity_affects_energy_only (dbh : R) :
  calculateEcosystemServices dbh ProxFar = calculateEcosystemServices dbh ProxNone
  /\
  (let near := calculateEcosystemServices dbh ProxNear in
   let none := calculateEcosystemServices dbh ProxNone in
   stormwaterInterceptedLiters near = stormwaterInterceptedLiters none /\
   airPollutionRemovedGrams near = airPollutionRemovedGrams none /\
   carbon (annualMonetaryValue near) = carbon (annualMonetaryValue none) /\
   stormwater (annualMonetaryValue near) = stormwater (annualMonetaryValue none) /\
   airQuality (annualMonetaryValue near) = airQuality (annualMonetaryValue none) /\
   total (annualMonetaryValue near) =
     total (annualMonetaryValue none) + energySavingsIDR near).
Proof.
  destruct (Rle_dec dbh 0) as [Hn | Hp].
  - rewrite !(calculateEcosystemServices_degenerate dbh _ Hn). cbn.
    repeat split; lra.
  - rewrite !(calculateEcosystemServices_positive dbh) by lra. cbn.
    repeat split; lra.
Qed.

(** The stormwater value and the air-quality value are a fixed price times
    the physical quantity, on every input: 32 per litre intercepted and 1280
    per gram removed (the products [0.002 * 16000] and [0.08 * 16000]). *)
Theorem stormwater_and_air_values_priced (dbh : R) (p : ProximityToBuilding) :
  let r := calculateEcosystemServices dbh p in
  stormwater (annualMonetaryValue r) = stormwaterInterceptedLiters r * 32 /\
  airQuality (annualMonetaryValue r) = airPollutionRemovedGrams r * 1280.
Proof.
  destruct (Rle_dec dbh 0) as [Hn | Hp].
  - rewrite (calculateEcosystemServices_degenerate dbh p Hn). cbn.
    repeat split; lra.
  - rewrite (calculateEcosystemServices_positive dbh p) by lra. cbn.
    repeat split; lra.
Qed.

Lemma leafArea_monotone (d1 d2 : R) :
  0 < d1 -> d1 <= d2 ->
  exp (-2.2 + 1.8 * ln d1) <= exp (-2.2 + 1.8 * ln d2).
Proof.
  intros H1 H12. apply exp_monotone.
  pose proof (ln_monotone d1 d2 H1 H12). lra.
Qed.

(** A thicker tree is never worth less: for a fixed proximity every field
    of the result is non-decreasing in [dbh], over all inputs. *)
Theorem ecosystem_services_monotone (d1 d2 : R) (p : ProximityToBuilding) :
  d1 <= d2 ->
  let r1 := calculateEcosystemServices d1 p in
  let r2 := calculateEcosystemServices d2 p in
  stormwaterInterceptedLiters r1 <= stormwaterInterceptedLiters r2 /\
  airPollutionRemovedGrams r1 <= airPollutionRemovedGrams r2 /\
  energySavingsIDR r1 <= energySavingsIDR r2 /\
  carbon (annualMonetaryValue r1) <= carbon (annualMonetaryValue r2) /\
  total (annualMonetaryValue r1) <= total (annualMonetaryValue r2).
Proof.
  intros H12.
  destruct (Rle_dec d1 0) as [Hn | Hp].
  - pose proof (services_nonneg d2 p) as Hnn. cbn zeta in Hnn.
    rewrite (calculateEcosystemServices_degenerate d1 p Hn). cbn.
    repeat split; apply Hnn.
  - pose proof (biomass_monotone d1 (d1 * 0.5) d2 (d2 * 0.5)) as Hmono.
    assert (Hb : biomass (calculateCarbonMetrics d1 (d1 * 0.5)) <=
                 biomass (calculateCarbonMetrics d2 (d2 * 0.5)))
      by (apply Hmono; lra).
    destruct (co2_of_biomass d1 (d1 * 0.5)) as [_ E1].
    destruct (co2_of_biomass d2 (d2 * 0.5)) as [_ E2]. cbn zeta in E1, E2.
    rewrite (calculateEcosystemServices_positive d1 p) by lra.
    rewrite (calculateEcosystemServices_positive d2 p) by lra. cbn.
    pose proof (leafArea_monotone d1 d2 ltac:(lra) H12) as HL.
    assert (HE : match p with ProxNear => (10 + d1 * 0.25) * 16000 | _ => 0 end <=
                 match p with ProxNear => (10 + d2 * 0.25) * 16000 | _ => 0 end)
      by (destruct p; lra).
    repeat split; lra.
Qed.

Lemma ecosystem_services_monotone_witness :
  let r1 := calculateEcosystemServices 20 ProxNear in
  let r2 := calculateEcosystemServices 50 ProxNear in
  stormwaterInterceptedLiters r1 <= stormwaterInterceptedLiters r2 /\
  airPollutionRemovedGrams r1 <= airPollutionRemovedGrams r2 /\
  energySavingsIDR r1 <= energySavingsIDR r2 /\
  carbon (annualMonetaryValue r1) <= carbon (annualMonetaryValue r2) /\
  total (annualMonetaryValue r1) <= total (annualMonetaryValue r2).
Proof. apply (ecosystem_services_monotone 20 50 ProxNear). lra. Defined.

(** ** Record assembly and the views of the collection *)

(** A session prepends its records, newest first, to the collection it
    started from, which it neither changes nor reorders; the collection
    grows by one record per call. *)
Theorem session_prepends_newest_first
    (calls : list (NewTree.t * Z)) (st : App.State) :
  App.trees (App.session calls st) =
    rev (map (fun call => App.newTree (fst call) (snd call)) calls) ++ App.trees st
  /\
  List.length (App.trees (App.session calls st)) =
    (List.length calls + List.length (App.trees st))%nat.
Proof.
  rewrite session_trees. split; [reflexivity |].
  rewrite length_app, length_rev, length_map. reflexivity.
Qed.

Lemma newTree_computed (newTreeData : NewTree.t) (now : Z) :
  computed (App.newTree newTreeData now).
Proof. split; reflexivity. Qed.

(** Every record a session adds carries the metrics of its own
    measurements, and a collection of such records stays one. *)
Theorem session_keeps_records_computed
    (calls : list (NewTree.t * Z)) (st : App.State) :
  Forall computed (App.added calls st)
  /\
  (Forall computed (App.trees st) ->
   Forall computed (App.trees (App.session calls st))).
Proof.
  assert (H : Forall computed
                (rev (map (fun call => App.newTree (fst call) (snd call)) calls))).
  { apply Forall_rev, Forall_map, Forall_forall. intros call _.
    apply newTree_computed. }
  split.
  - rewrite added_eq. exact H.
  - intros Hst. rewrite session_trees. apply Forall_app. split; assumption.
Qed.

Lemma session_keeps_records_computed_witness :
  Forall computed
    (App.added [sampleTree "Jati" 1714521600000] (App.mkState ViewForm []))
  /\
  Forall computed
    (App.trees (App.session [sampleTree "Jati" 1714521600000]
                            (App.mkState ViewForm []))).
Proof.
  split.
  - apply (proj1 (session_keeps_records_computed _ _)).
  - apply (proj2 (session_keeps_records_computed _ _)). constructor.
Defined.

(** The map is centred on the record of the last call of a session, at the
    coordinates the form submitted, whatever came before; it shows one
    marker per record, the newest first. *)
Theorem map_centres_on_newest
    (calls : list (NewTree.t * Z)) (newTreeData : NewTree.t) (now : Z)
    (st : App.State) :
  let st' := App.session (calls ++ [(newTreeData, now)]) st in
  MapDisplay.center (App.trees st') =
    (NewTree.latitude newTreeData, NewTree.longitude newTreeData)
  /\
  map fst (MapDisplay.markers (App.trees st')) =
    now :: rev (map snd calls) ++ map Tree.id (App.trees st).
Proof.
  cbn zeta. rewrite session_trees, map_app, rev_app_distr. cbn [map rev app fst snd].
  split; [reflexivity |].
  unfold MapDisplay.markers. rewrite map_map. cbn [map fst Tree.id App.newTree].
  f_equal. rewrite map_app, map_rev, map_map. reflexivity.
Qed.

(** ** Totals *)

Lemma fold_left_sum (f : Tree.t -> R) (trees : list Tree.t) (a : R) :
  fold_left (fun acc tree => acc + f tree) trees a = a + sumList (map f trees).
Proof.
  revert a. induction trees as [| tree trees IH]; intros a; cbn.
  - lra.
  - rewrite IH. unfold sumList. lra.
Qed.

Lemma sumOver_sumList (f : Tree.t -> R) (trees : list Tree.t) :
  Dashboard.sumOver f trees = sumList (map f trees).
Proof. unfold Dashboard.sumOver. rewrite fold_left_sum. lra. Qed.

Lemma stats_totals (trees : list Tree.t) :
  let s := Dashboard.stats trees in
  Dashboard.totalTrees s = List.length trees /\
  Dashboard.totalCarbon s =
    sumList (map (fun tree => co2Sequestrated (Tree.carbon tree)) trees) /\
  Dashboard.totalStormwater s =
    sumList (map (fun tree => stormwaterInterceptedLiters (Tree.ecosystemServices tree))
                 trees) /\
  Dashboard.totalPollution s =
    sumList (map (fun tree => airPollutionRemovedGrams (Tree.ecosystemServices tree))
                 trees) /\
  Dashboard.totalMonetaryValue s =
    sumList (map (fun tree => total (annualMonetaryValue (Tree.ecosystemServices tree)))
                 trees).
Proof.
  destruct trees as [| tree trees].
  - cbn. repeat split; reflexivity.
  - cbn [Dashboard.stats Dashboard.totalTrees Dashboard.totalCarbon
         Dashboard.totalStormwater Dashboard.totalPollution
         Dashboard.totalMonetaryValue].
    rewrite !sumOver_sumList. repeat split; reflexivity.
Qed.

Lemma stats_monetaryBreakdown (trees : list Tree.t) :
  Dashboard.monetaryBreakdown (Dashboard.stats trees) =
    filter (fun item => JsNumber.gt0 (snd item))
      [ ("Penyimpanan Karbon"%string,
         sumList (map (fun tree => carbon (annualMonetaryValue (Tree.ecosystemServices tree)))
                      trees));
        ("Manajemen Air Hujan"%string,
         sumList (map (fun tree => stormwater (annualMonetaryValue (Tree.ecosystemServices tree)))
                      trees));
        ("Kualitas Udara"%string,
         sumList (map (fun tree => airQuality (annualMonetaryValue (Tree.ecosystemServices tree)))
                      trees));
        ("Penghematan Energi"%string,
         sumList (map (fun tree => energy (annualMonetaryValue (Tree.ecosystemServices tree)))
                      trees)) ].
Proof.
  destruct trees as [| tree trees].
  - cbn [Dashboard.stats Dashboard.monetaryBreakdown map sumList fold_right filter snd].
    rewrite (gt0_false 0) by lra. reflexivity.
  - cbn [Dashboard.stats Dashboard.monetaryBreakdown].
    rewrite !sumOver_sumList. reflexivity.
Qed.

(** The report and the dashboard agree: the summary of [generatePdfReport]
    has the dashboard's totals for every collection, the empty one
    included, where the dashboard takes its separate branch and the report
    folds over nothing. *)
Theorem pdf_summary_matches_dashboard (trees : list Tree.t) :
  let s := Dashboard.stats trees in
  let r := PdfGenerator.summary trees in
  PdfGenerator.totalTrees r = Dashboard.totalTrees s /\
  PdfGenerator.totalCO2 r = Dashboard.totalCarbon s /\
  PdfGenerator.totalStormwater r = Dashboard.totalStormwater s /\
  PdfGenerator.totalPollution r = Dashboard.totalPollution s /\
  PdfGenerator.totalValue r = Dashboard.totalMonetaryValue s.
Proof.
  destruct (stats_totals trees) as (H0 & H1 & H2 & H3 & H4). cbn zeta.
  rewrite H0, H1, H2, H3, H4.
  unfold PdfGenerator.summary.
  cbn [PdfGenerator.totalTrees PdfGenerator.totalCO2 PdfGenerator.totalStormwater
       PdfGenerator.totalPollution PdfGenerator.totalValue].
  rewrite !fold_left_sum. repeat split; lra.
Qed.

(** ** Monetary breakdown *)

Lemma sumList_nonneg (l : list R) : Forall (fun x => 0 <= x) l -> 0 <= sumList l.
Proof.
  induction 1 as [| x l Hx _ IH]; cbn; [lra |]. unfold sumList in IH. lra.
Qed.

Lemma sumList_pos_iff (l : list R) :
  Forall (fun x => 0 <= x) l ->
  (0 < sumList l <-> Exists (fun x => 0 < x) l).
Proof.
  induction 1 as [| x l Hx Hl IH]; cbn.
  - split; [lra | intros H; inversion H].
  - pose proof (sumList_nonneg l Hl) as Hs. unfold sumList in *. split.
    + intros H. destruct (Rlt_dec 0 x) as [Hp | Hn].
      * apply Exists_cons_hd. exact Hp.
      * apply Exists_cons_tl. apply IH. lra.
    + intros H. inversion H as [? ? Hp | ? ? Hp]; subst.
      * lra.
      * apply IH in Hp. lra.
Qed.

Lemma Exists_iff_where {A : Type} (P Q G : A -> Prop) (l : list A) :
  Forall G l -> (forall x, G x -> (P x <-> Q x)) ->
  (Exists P l <-> Exists Q l).
Proof.
  intros Hl HPQ. induction Hl as [| x l Hx _ IH].
  - split; intros H; inversion H.
  - rewrite !Exists_cons, IH, (HPQ x Hx). reflexivity.
Qed.

Lemma gt0_iff (x : R) : JsNumber.gt0 x = true <-> 0 < x.
Proof.
  unfold JsNumber.gt0. destruct (Rlt_dec 0 x); split; try discriminate; tauto.
Qed.

Lemma monetaryBreakdown_categories (trees : list Tree.t) :
  Dashboard.monetaryBreakdown (Dashboard.stats trees) =
    filter (fun item => JsNumber.gt0 (snd item)) (categories trees).
Proof.
  unfold categories. rewrite !sumOver_sumList. apply stats_monetaryBreakdown.
Qed.

Lemma computed_components_nonneg (trees : list Tree.t) :
  Forall computed trees ->
  Forall (fun item => 0 <= snd item) (categories trees).
Proof.
  intros Hc.
  assert (H : forall f : MonetaryValue -> R,
            (forall dbh p, 0 <= f (annualMonetaryValue (calculateEcosystemServices dbh p))) ->
            0 <= Dashboard.sumOver
                   (fun tree => f (annualMonetaryValue (Tree.ecosystemServices tree))) trees).
  { intros f Hf. rewrite sumOver_sumList. apply sumList_nonneg.
    apply Forall_map. eapply Forall_impl; [| exact Hc].
    intros tree [_ E]. rewrite E. apply Hf. }
  unfold categories.
  repeat apply Forall_cons; [| | | | apply Forall_nil]; cbn [snd]; apply H;
    intros dbh p; apply (services_nonneg dbh p).
Qed.

Lemma energy_pos_iff (dbh : R) (p : ProximityToBuilding) :
  0 < energy (annualMonetaryValue (calculateEcosystemServices dbh p)) <->
  p = ProxNear /\ 0 < dbh.
Proof.
  destruct (Rle_dec dbh 0) as [Hn | Hp].
  - rewrite (calculateEcosystemServices_degenerate dbh p Hn). cbn. split; intros H; lra.
  - rewrite (calculateEcosystemServices_positive dbh p) by lra. cbn.
    destruct p; split; intros H; try lra; try (split; [reflexivity | lra]);
      destruct H as [H _]; discriminate.
Qed.

(** On every collection, the empty one included, [monetaryBreakdown] lists
    the four categories in their fixed order, each with the sum the
    dashboard folds for it, and leaves out those whose sum is not positive:
    an entry is shown exactly when it is a category with a positive sum.
    When every record carries the figures computed for it, a category that
    is left out has the sum 0, and the energy category is shown exactly
    when some tree of positive diameter stands near a building. *)
Theorem monetaryBreakdown_shows_positive_categories (trees : list Tree.t) :
  let shown := Dashboard.monetaryBreakdown (Dashboard.stats trees) in
  shown = filter (fun item => JsNumber.gt0 (snd item)) (categories trees)
  /\
  (forall item, In item shown <-> In item (categories trees) /\ 0 < snd item)
  /\
  (Forall computed trees ->
   (forall item, In item (categories trees) -> ~ In item shown -> snd item = 0) /\
   (In "Penghematan Energi"%string (map fst shown) <-> Exists shadesBuilding trees)).
Proof.
  cbn zeta. pose proof (monetaryBreakdown_categories trees) as E.
  assert (HIn : forall item,
            In item (Dashboard.monetaryBreakdown (Dashboard.stats trees)) <->
            In item (categories trees) /\ 0 < snd item).
  { intros item. rewrite E, filter_In, gt0_iff. reflexivity. }
  split; [exact E |]. split; [exact HIn |].
  intros Hc. split.
  - intros item Hcat Hout.
    pose proof (computed_components_nonneg trees Hc) as Hnn.
    rewrite Forall_forall in Hnn. specialize (Hnn item Hcat).
    destruct (Rlt_dec 0 (snd item)) as [Hp | Hn]; [| lra].
    exfalso. apply Hout. apply HIn. split; assumption.
  - assert (Hsum : 0 < Dashboard.sumOver
                         (fun tree => energy (annualMonetaryValue (Tree.ecosystemServices tree)))
                         trees <-> Exists shadesBuilding trees).
    { rewrite sumOver_sumList, sumList_pos_iff.
      - rewrite Exists_map. apply (Exists_iff_where _ _ computed); [exact Hc |].
        intros tree [_ Ee]. rewrite Ee. apply energy_pos_iff.
      - apply Forall_map. eapply Forall_impl; [| exact Hc].
        intros tree [_ Ee]. rewrite Ee. apply (services_nonneg _ _). }
    rewrite <- Hsum. rewrite in_map_iff. split.
    + intros [[name v] [En Hin]]. cbn in En. subst name.
      apply HIn in Hin as [Hcat Hv]. cbn [snd] in Hv.
      unfold categories in Hcat. cbn [In] in Hcat.
      destruct Hcat as [Eq | [Eq | [Eq | [Eq | []]]]]; try discriminate Eq.
      apply (f_equal snd) in Eq. cbn [snd] in Eq. rewrite Eq. exact Hv.
    + intros Hv. eexists (_, _). split; [reflexivity |].
      apply HIn. split; [| exact Hv].
      unfold categories. cbn [In]. right. right. right. left. reflexivity.
Qed.

Lemma monetaryBreakdown_shows_positive_categories_witness :
  let trees := [App.newTree (fst (sampleTree "Jati" 1714521600000)) 1714521600000] in
  let shown := Dashboard.monetaryBreakdown (Dashboard.stats trees) in
  (forall item, In item (categories trees) -> ~ In item shown -> snd item = 0) /\
  (In "Penghematan Energi"%string (map fst shown) <-> Exists shadesBuilding trees).
Proof.
  apply (proj2 (proj2 (monetaryBreakdown_shows_positive_categories
                         [App.newTree (fst (sampleTree "Jati" 1714521600000))
                                      1714521600000]))).
  apply Forall_cons; [| apply Forall_nil]. split; reflexivity.
Defined.

(** ** Rounding to two decimals *)







(** ** Carbon by condition *)



(** ** Species data on every collection *)

Lemma count_occ_snoc (l : list string) (s k : string) :
  count_occ string_dec (l ++ [s]) k =
    (count_occ string_dec l k + if string_dec s k then 1 else 0)%nat.
Proof. rewrite count_occ_app. cbn. destruct (string_dec s k); reflexivity. Qed.

Lemma increment_recorded (o : JsObject.t) (l : list string) (s : string) :
  recorded o l -> recorded (JsObject.increment o s) (l ++ [s]).
Proof.
  intros [Hnd Hget]. unfold JsObject.increment.
  destruct (String.eqb s "__proto__") eqn:Hproto.
  - apply String.eqb_eq in Hproto. subst s. split; [exact Hnd |].
    intros k. rewrite Hget. unfold entryFor. rewrite count_occ_snoc.
    destruct (string_dec "__proto__" k) as [<- | Hne].
    + rewrite String.eqb_refl, !orb_true_r. reflexivity.
    + rewrite Nat.add_0_r. reflexivity.
  - assert (Hother : forall v k, s <> k ->
              JsObject.getOwn (JsObject.set o s v) k = entryFor (l ++ [s]) k).
    { intros v k Hne. rewrite getOwn_set_other, Hget by exact Hne.
      unfold entryFor. rewrite count_occ_snoc.
      destruct (string_dec s k); [contradiction |]. rewrite Nat.add_0_r. reflexivity. }
    assert (Hsame : entryFor (l ++ [s]) s =
                    Some (if JsObject.inherited s
                          then JsObject.Str s (count_occ string_dec l s + 1)
                          else JsObject.Num (count_occ string_dec l s + 1))).
    { unfold entryFor. rewrite count_occ_snoc, Hproto.
      destruct (string_dec s s); [| contradiction].
      destruct (Nat.eqb_spec (count_occ string_dec l s + 1) 0); [lia |].
      cbn [orb]. destruct (JsObject.inherited s); reflexivity. }
    pose proof (Hget s) as Hs. unfold entryFor in Hs. rewrite Hproto, orb_false_r in Hs.
    destruct (Nat.eqb_spec (count_occ string_dec l s) 0) as [Hz | Hnz].
    + rewrite Hs. destruct (JsObject.inherited s) eqn:Hinh;
        (split; [apply set_NoDup; exact Hnd |]);
        intros k; (destruct (string_dec s k) as [<- | Hne]; [| apply Hother; exact Hne]);
        rewrite getOwn_set_same, Hsame; try rewrite Hinh; try rewrite Hz; reflexivity.
    + rewrite Hs. destruct (JsObject.inherited s) eqn:Hinh;
        (split; [apply set_NoDup; exact Hnd |]);
        intros k; (destruct (string_dec s k) as [<- | Hne]; [| apply Hother; exact Hne]);
        rewrite getOwn_set_same, Hsame; try rewrite Hinh; reflexivity.
Qed.

Lemma fold_increment_recorded (ss : list string) (o : JsObject.t) (l : list string) :
  recorded o l -> recorded (fold_left JsObject.increment ss o) (l ++ ss).
Proof.
  revert o l. induction ss as [| s ss IH]; intros o l Ho; cbn [fold_left].
  - rewrite app_nil_r. exact Ho.
  - replace (l ++ s :: ss) with ((l ++ [s]) ++ ss)
      by (rewrite <- app_assoc; reflexivity).
    apply IH, increment_recorded, Ho.
Qed.

Lemma speciesCount_recorded (trees : list Tree.t) :
  recorded (Dashboard.speciesCount trees) (map Tree.species trees).
Proof.
  unfold Dashboard.speciesCount. rewrite speciesCount_fold.
  apply (fold_increment_recorded (map Tree.species trees) [] []).
  split; [constructor | intros k; reflexivity].
Qed.

Lemma speciesData_In (trees : list Tree.t) (name : string) (v : JsObject.value) :
  In (name, v) (Dashboard.speciesData (Dashboard.stats trees)) <->
  entryFor (map Tree.species trees) name = Some v.
Proof.
  destruct (speciesCount_recorded trees) as [Hnd Hget].
  pose proof (speciesData_Permutation trees) as Hperm.
  rewrite <- Hget. split; intros H.
  - apply In_getOwn; [exact Hnd |]. apply (Permutation_in _ Hperm H).
  - apply getOwn_In in H. apply (Permutation_in _ (Permutation_sym Hperm) H).
Qed.

Lemma speciesData_NoDup (trees : list Tree.t) :
  NoDup (map fst (Dashboard.speciesData (Dashboard.stats trees))).
Proof.
  destruct (speciesCount_recorded trees) as [Hnd _].
  apply (Permutation_NoDup (l := map fst (Dashboard.speciesCount trees)));
    [| exact Hnd].
  apply Permutation_map, Permutation_sym, speciesData_Permutation.
Qed.

(** On every collection [speciesData] has one entry per distinct species
    other than [__proto__]; the entry of a species [{}] does not inherit
    carries the number of its trees, the entry of an inherited function name
    ([constructor], [toString], ...) carries a string with one [1] per tree,
    and [__proto__] has no entry. *)
Theorem speciesData_entries (trees : list Tree.t) :
  let sd := Dashboard.speciesData (Dashboard.stats trees) in
  NoDup (map fst sd)
  /\
  (forall name v,
     In (name, v) sd <->
     In name (map Tree.species trees) /\ name <> "__proto__"%string /\
     v = if JsObject.inherited name
         then JsObject.Str name (occurrences name trees)
         else JsObject.Num (occurrences name trees))
  /\
  ~ In "__proto__"%string (map fst sd).
Proof.
  cbn zeta. split; [apply speciesData_NoDup |].
  assert (H : forall name v,
     In (name, v) (Dashboard.speciesData (Dashboard.stats trees)) <->
     In name (map Tree.species trees) /\ name <> "__proto__"%string /\
     v = if JsObject.inherited name
         then JsObject.Str name (occurrences name trees)
         else JsObject.Num (occurrences name trees)).
  { intros name v. rewrite speciesData_In. unfold entryFor, occurrences.
    rewrite (count_occ_In string_dec).
    destruct (Nat.eqb_spec (count_occ string_dec (map Tree.species trees) name) 0)
      as [Hz | Hnz]; cbn [orb].
    - split; [discriminate | intros [Hc _]; lia].
    - destruct (String.eqb_spec name "__proto__") as [Hp | Hp].
      + split; [discriminate | intros (_ & Hne & _); contradiction].
      + destruct (JsObject.inherited name); split.
        * intros E. injection E as <-. repeat split; [lia | exact Hp].
        * intros (_ & _ & ->). reflexivity.
        * intros E. injection E as <-. repeat split; [lia | exact Hp].
        * intros (_ & _ & ->). reflexivity. }
  split; [exact H |].
  intros Hin. apply in_map_iff in Hin as [[name v] [E Hin]]. cbn in E. subst name.
  apply H in Hin as (_ & Hne & _). apply Hne. reflexivity.
Qed.

(** The species entries do not depend on the order of the collection
    either, up to their own order: two collections with the same records
    give the same entries. *)
Theorem speciesData_order_independent (trees trees' : list Tree.t) :
  Permutation trees trees' ->
  Permutation (Dashboard.speciesData (Dashboard.stats trees))
              (Dashboard.speciesData (Dashboard.stats trees')).
Proof.
  intros H. apply NoDup_Permutation.
  - apply (NoDup_map_inv fst), speciesData_NoDup.
  - apply (NoDup_map_inv fst), speciesData_NoDup.
  - intros [name v]. rewrite !speciesData_In. unfold entryFor.
    assert (E : count_occ string_dec (map Tree.species trees) name =
                count_occ string_dec (map Tree.species trees') name).
    { apply Permutation_count_occ, Permutation_map, H. }
    rewrite E. reflexivity.
Qed.

Lemma speciesData_order_independent_witness :
  Permutation
    (Dashboard.speciesData
       (Dashboard.stats [storedTree "Jati" HEALTHY 12.34; storedTree "Pinus" DEAD 3.5]))
    (Dashboard.speciesData
       (Dashboard.stats [storedTree "Pinus" DEAD 3.5; storedTree "Jati" HEALTHY 12.34])).
Proof.
  apply (speciesData_order_independent
           [storedTree "Jati" HEALTHY 12.34; storedTree "Pinus" DEAD 3.5]
           [storedTree "Pinus" DEAD 3.5; storedTree "Jati" HEALTHY 12.34]).
  apply perm_swap.
Defined.

Lemma set_tally (o : JsObject.t) (k : string) (v : JsObject.value) :
  (list_sum (map (fun e => tallyOf (snd e)) (JsObject.set o k v))
   + match JsObject.getOwn o k with Some w => tallyOf w | None => 0 end
   = list_sum (map (fun e => tallyOf (snd e)) o) + tallyOf v)%nat.
Proof.
  induction o as [| [k0 w] o IH]; cbn [JsObject.set JsObject.getOwn].
  - cbn. lia.
  - unfold list_sum in *.
    destruct (String.eqb k0 k); cbn [map fold_right snd] in *; lia.
Qed.

Lemma increment_tally (o : JsObject.t) (s : string) :
  list_sum (map (fun e => tallyOf (snd e)) (JsObject.increment o s)) =
    (list_sum (map (fun e => tallyOf (snd e)) o)
     + if String.eqb s "__proto__" then 0 else 1)%nat.
Proof.
  unfold JsObject.increment. destruct (String.eqb s "__proto__"); [lia |].
  destruct (JsObject.getOwn o s) as [[n | f k] |] eqn:E.
  - pose proof (set_tally o s (JsObject.Num (n + 1))) as H. rewrite E in H. cbn in H. lia.
  - pose proof (set_tally o s (JsObject.Str f (k + 1))) as H. rewrite E in H. cbn in H. lia.
  - destruct (JsObject.inherited s).
    + pose proof (set_tally o s (JsObject.Str s 1)) as H. rewrite E in H. cbn in H. lia.
    + pose proof (set_tally o s (JsObject.Num 1)) as H. rewrite E in H. cbn in H. lia.
Qed.

Lemma fold_increment_tally (ss : list string) (o : JsObject.t) :
  Forall (fun s => ordinaryKey s = true) ss ->
  list_sum (map (fun e => tallyOf (snd e)) (fold_left JsObject.increment ss o)) =
    (list_sum (map (fun e => tallyOf (snd e)) o) + List.length ss)%nat.
Proof.
  intros H. revert o. induction H as [| s ss Hs _ IH]; intros o; cbn [fold_left List.length].
  - lia.
  - rewrite IH, increment_tally.
    apply ordinaryKey_spec in Hs as [_ ->]. lia.
Qed.

(** When no species is a key that [{}] inherits, the counts of
    [speciesData] add up to the number of trees. *)
Theorem species_counts_add_up (trees : list Tree.t) :
  Forall (fun tree => ordinaryKey (Tree.species tree) = true) trees ->
  list_sum (map countOf (Dashboard.speciesData (Dashboard.stats trees))) =
    Dashboard.totalTrees (Dashboard.stats trees).
Proof.
  intros H. destruct (stats_totals trees) as [-> _].
  assert (Hc : map countOf (Dashboard.speciesData (Dashboard.stats trees)) =
               map (fun e => tallyOf (snd e))
                   (Dashboard.speciesData (Dashboard.stats trees))).
  { apply map_ext_in. intros [name v] Hin. apply speciesData_In in Hin.
    unfold entryFor in Hin.
    assert (Hname : In name (map Tree.species trees)).
    { apply (count_occ_In string_dec).
      destruct (count_occ string_dec (map Tree.species trees) name); [discriminate | lia]. }
    apply in_map_iff in Hname as [tree [<- Htree]].
    rewrite Forall_forall in H. apply H, ordinaryKey_spec in Htree as [Hinh Hproto].
    rewrite Hinh, Hproto, orb_false_r in Hin.
    destruct (_ =? 0)%nat; [discriminate |]. injection Hin as <-. reflexivity. }
  rewrite Hc.
  rewrite (Permutation_list_sum
             (Permutation_map (fun e => tallyOf (snd e)) (speciesData_Permutation trees))).
  unfold Dashboard.speciesCount. rewrite speciesCount_fold.
  rewrite fold_increment_tally by (apply Forall_map; exact H).
  cbn. apply length_map.
Qed.

Lemma species_counts_add_up_witness :
  list_sum (map countOf
              (Dashboard.speciesData
                 (Dashboard.stats [storedTree "Jati" HEALTHY 12.34;
                                   storedTree "Pinus" DAMAGED 3.5;
                                   storedTree "Jati" DEAD 0.2]))) =
    Dashboard.totalTrees
      (Dashboard.stats [storedTree "Jati" HEALTHY 12.34;
                        storedTree "Pinus" DAMAGED 3.5;
                        storedTree "Jati" DEAD 0.2]).
Proof.
  apply (species_counts_add_up [storedTree "Jati" HEALTHY 12.34;
                                storedTree "Pinus" DAMAGED 3.5;
                                storedTree "Jati" DEAD 0.2]).
  repeat constructor.
Defined.

(** ** Order of the species entries *)

Section SortStable.
Context {A : Type}.
Variable after : A -> A -> bool.
Variable key : A -> nat.
Variable P : A -> Prop.
Hypothesis after_key :
  forall a b, P a -> P b -> after a b = (key a <? key b)%nat.

Lemma insert_filter_key (n : nat) (a : A) (l : list A) :
  P a -> Forall P l ->
  filter (fun e => (key e =? n)%nat) (JsArray.insert after a l) =
    filter (fun e => (key e =? n)%nat) (a :: l).
Proof.
  intros Pa Pl. induction Pl as [| b l Pb _ IH]; [reflexivity |].
  cbn [JsArray.insert]. rewrite (after_key a b Pa Pb).
  destruct (Nat.ltb_spec (key a) (key b)) as [Hlt | Hge]; [| reflexivity].
  cbn [filter] in *. rewrite IH.
  destruct (Nat.eqb_spec (key a) n), (Nat.eqb_spec (key b) n); try reflexivity. lia.
Qed.

Lemma sort_filter_key (n : nat) (l : list A) :
  Forall P l ->
  filter (fun e => (key e =? n)%nat) (JsArray.sort after l) =
    filter (fun e => (key e =? n)%nat) l.
Proof.
  induction 1 as [| a l Pa Pl IH]; [reflexivity |].
  cbn [JsArray.sort fold_right]. fold (JsArray.sort after l).
  rewrite insert_filter_key.
  - cbn [filter]. rewrite IH. reflexivity.
  - exact Pa.
  - apply (Permutation_Forall (Permutation_sym (sort_Permutation after l))). exact Pl.
Qed.

End SortStable.

Lemma getOwn_existsb (o : JsObject.t) (s : string) :
  existsb (String.eqb s) (map fst o) =
    match JsObject.getOwn o s with Some _ => true | None => false end.
Proof.
  induction o as [| [k0 w] o IH]; cbn [map fst existsb JsObject.getOwn]; [reflexivity |].
  rewrite (String.eqb_sym s k0). destruct (String.eqb k0 s); [reflexivity | exact IH].
Qed.

Lemma increment_keys (o : JsObject.t) (s : string) :
  String.eqb s "__proto__" = false ->
  map fst (JsObject.increment o s) =
    if existsb (String.eqb s) (map fst o) then map fst o else map fst o ++ [s].
Proof.
  intros Hp. unfold JsObject.increment. rewrite Hp, getOwn_existsb.
  destruct (JsObject.getOwn o s) as [[n | f k] |] eqn:E.
  - rewrite set_keys, E. reflexivity.
  - rewrite set_keys, E. reflexivity.
  - destruct (JsObject.inherited s); rewrite set_keys, E; reflexivity.
Qed.

Lemma fold_increment_keys (ss : list string) (o : JsObject.t) :
  Forall (fun s => ordinaryKey s = true) ss ->
  map fst (fold_left JsObject.increment ss o) =
    fold_left (fun acc s => if existsb (String.eqb s) acc then acc else acc ++ [s])
              ss (map fst o).
Proof.
  intros H. revert o. induction H as [| s ss Hs _ IH]; intros o; cbn [fold_left].
  - reflexivity.
  - rewrite IH, increment_keys; [reflexivity |].
    apply ordinaryKey_spec in Hs as [_ Hp]. exact Hp.
Qed.

Lemma plainName_spec (s : string) :
  plainName s = true -> ordinaryKey s = true /\ JsObject.arrayIndex s = None.
Proof.
  unfold plainName. intros H. apply andb_prop in H as [H1 H2]. split; [exact H1 |].
  destruct (JsObject.arrayIndex s); [discriminate | reflexivity].
Qed.

Lemma entries_without_index (o : JsObject.t) :
  Forall (fun e => JsObject.isIndex e = false) o -> JsObject.entries o = o.
Proof.
  intros H. unfold JsObject.entries.
  assert (E2 : filter (fun e => negb (JsObject.isIndex e)) o = o).
  { induction H as [| e o He _ IH]; cbn [filter]; [reflexivity |].
    rewrite He. cbn [negb]. f_equal. exact IH. }
  assert (E1 : filter JsObject.isIndex o = []).
  { clear E2. induction H as [| e o He _ IH]; cbn [filter]; [reflexivity |].
    rewrite He. exact IH. }
  rewrite E1, E2. reflexivity.
Qed.

Lemma speciesCount_plain (trees : list Tree.t) :
  Forall (fun tree => plainName (Tree.species tree) = true) trees ->
  Dashboard.speciesCount trees =
    map (fun s => (s, JsObject.Num (occurrences s trees)))
        (firstAppearance (map Tree.species trees))
  /\
  JsObject.entries (Dashboard.speciesCount trees) = Dashboard.speciesCount trees.
Proof.
  intros H.
  assert (Hord : Forall (fun s => ordinaryKey s = true) (map Tree.species trees)).
  { apply Forall_map. apply (Forall_impl _ (fun t Ht => proj1 (plainName_spec _ Ht)) H). }
  destruct (speciesCount_recorded trees) as [Hnd Hget].
  assert (Hin : forall name v, In (name, v) (Dashboard.speciesCount trees) ->
            In name (map Tree.species trees) /\
            v = JsObject.Num (occurrences name trees)).
  { intros name v Hi. apply (In_getOwn _ _ _ Hnd) in Hi. rewrite Hget in Hi.
    unfold entryFor in Hi.
    assert (Hname : In name (map Tree.species trees)).
    { apply (count_occ_In string_dec).
      destruct (count_occ string_dec (map Tree.species trees) name); [discriminate | lia]. }
    split; [exact Hname |].
    rewrite Forall_forall in Hord. apply Hord, ordinaryKey_spec in Hname as [Hinh Hproto].
    rewrite Hinh, Hproto, orb_false_r in Hi.
    destruct (_ =? 0)%nat; [discriminate |]. injection Hi as <-. reflexivity. }
  split.
  - unfold firstAppearance.
    replace (fold_left _ (map Tree.species trees) [])
      with (map fst (Dashboard.speciesCount trees)).
    + rewrite map_map. rewrite <- (map_id (Dashboard.speciesCount trees)) at 1.
      apply map_ext_in. intros [name v] Hi. apply Hin in Hi as [_ ->]. reflexivity.
    + unfold Dashboard.speciesCount. rewrite speciesCount_fold.
      apply (fold_increment_keys _ [] Hord).
  - apply entries_without_index. apply Forall_forall. intros [name v] Hi.
    apply Hin in Hi as [Hname _]. apply in_map_iff in Hname as [tree [<- Htree]].
    rewrite Forall_forall in H. apply H, plainName_spec in Htree as [_ Hidx].
    unfold JsObject.isIndex. cbn [fst]. rewrite Hidx. reflexivity.
Qed.

(** Ties keep the order of first appearance: when the species names are
    plain (not inherited by [{}], not array indices), the species that have
    [n] trees are listed in [speciesData] in the order in which they first
    occur in the collection. *)
Theorem species_ties_in_first_appearance_order (trees : list Tree.t) (n : nat) :
  Forall (fun tree => plainName (Tree.species tree) = true) trees ->
  map fst (filter (fun e => (countOf e =? n)%nat)
                  (Dashboard.speciesData (Dashboard.stats trees))) =
    filter (fun s => (occurrences s trees =? n)%nat)
           (firstAppearance (map Tree.species trees)).
Proof.
  intros H. destruct (speciesCount_plain trees H) as [Ho He].
  rewrite stats_speciesData, He.
  rewrite (sort_filter_key Dashboard.valueAfter countOf
             (fun e => exists m, snd e = JsObject.Num m)).
  - rewrite Ho, filter_map_swap, map_map. cbn [fst countOf snd]. apply map_id.
  - intros a b [m Ha] [k Hb]. unfold Dashboard.valueAfter, countOf.
    rewrite Ha, Hb. reflexivity.
  - rewrite Ho. apply Forall_map, Forall_forall. intros s _. eexists. reflexivity.
Qed.

Lemma species_ties_in_first_appearance_order_witness :
  map fst (filter (fun e => (countOf e =? 1)%nat)
                  (Dashboard.speciesData
                     (Dashboard.stats [storedTree "Pinus" HEALTHY 12.34;
                                       storedTree "Jati" DAMAGED 3.5;
                                       storedTree "Mahoni" DEAD 0.2;
                                       storedTree "Jati" DEAD 0.2]))) =
    filter (fun s => (occurrences s [storedTree "Pinus" HEALTHY 12.34;
                                     storedTree "Jati" DAMAGED 3.5;
                                     storedTree "Mahoni" DEAD 0.2;
                                     storedTree "Jati" DEAD 0.2] =? 1)%nat)
           (firstAppearance (map Tree.species [storedTree "Pinus" HEALTHY 12.34;
                                               storedTree "Jati" DAMAGED 3.5;
                                               storedTree "Mahoni" DEAD 0.2;
                                               storedTree "Jati" DEAD 0.2])).
Proof.
  apply (species_ties_in_first_appearance_order
           [storedTree "Pinus" HEALTHY 12.34; storedTree "Jati" DAMAGED 3.5;
            storedTree "Mahoni" DEAD 0.2; storedTree "Jati" DEAD 0.2] 1).
  repeat constructor.
Defined.

(** ** The analysis service *)

(** [analyzeTreeImage] returns a condition text of the response that is one
    of the three enum values as it is, and replaces every other text by
    Healthy. *)
Theorem validCondition_keeps_or_defaults (c : string) :
  (forall t : TreeCondition,
     GeminiService.validCondition (TreeCondition_value t) = t)
  /\
  (TreeCondition_value (GeminiService.validCondition c) = c <->
   In c (map TreeCondition_value GeminiService.conditions))
  /\
  (~ In c (map TreeCondition_value GeminiService.conditions) ->
   GeminiService.validCondition c = HEALTHY).
Proof.
  split; [intros []; reflexivity |].
  unfold GeminiService.validCondition, GeminiService.conditions.
  cbn [find map In TreeCondition_value].
  destruct (String.eqb_spec "Healthy" c) as [<- | H1].
  { split; [split; [intros _; left; reflexivity | reflexivity] | reflexivity]. }
  destruct (String.eqb_spec "Damaged" c) as [<- | H2].
  { split; [split; [intros _; right; left; reflexivity | reflexivity] |].
    intros H. exfalso. apply H. right. left. reflexivity. }
  destruct (String.eqb_spec "Dead" c) as [<- | H3].
  { split; [split; [intros _; right; right; left; reflexivity | reflexivity] |].
    intros H. exfalso. apply H. right. right. left. reflexivity. }
  split; [| reflexivity].
  split; [intros E; cbn in E; contradiction | intros [E | [E | [E | []]]]; contradiction].
Qed.

(** ** The form *)

Lemma handleSubmit_incomplete (parseFloat : string -> R)
    (f : DataCollectionForm.Form) (isoNow : string) :
  missingField f ->
  DataCollectionForm.handleSubmit parseFloat f isoNow =
    (DataCollectionForm.mkForm
       (DataCollectionForm.species f) (DataCollectionForm.dbh f)
       (DataCollectionForm.height f) (DataCollectionForm.condition f)
       (DataCollectionForm.proximityToBuilding f) (DataCollectionForm.notes f)
       (DataCollectionForm.photo f) (DataCollectionForm.latitude f)
       (DataCollectionForm.longitude f)
       (Some "Harap isi semua kolom yang wajib diisi dan unggah foto."%string),
     None).
Proof.
  intros H. unfold DataCollectionForm.handleSubmit.
  replace (_ || _) with true; [reflexivity |].
  symmetry. unfold DataCollectionForm.blank.
  destruct H as [H | [H | [H | [H | [H | H]]]]]; rewrite H;
    rewrite ?String.eqb_refl, ?orb_true_r; reflexivity.
Qed.

Lemma handleSubmit_complete (parseFloat : string -> R)
    (f : DataCollectionForm.Form) (isoNow : string) :
  ~ missingField f ->
  exists p,
    DataCollectionForm.photo f = Some p /\
    DataCollectionForm.handleSubmit parseFloat f isoNow =
      (DataCollectionForm.initial,
       Some (NewTree.mk (DataCollectionForm.species f)
                        (parseFloat (DataCollectionForm.dbh f))
                        (parseFloat (DataCollectionForm.height f))
                        (DataCollectionForm.condition f)
                        (DataCollectionForm.proximityToBuilding f)
                        (DataCollectionForm.notes f) p
                        (parseFloat (DataCollectionForm.latitude f))
                        (parseFloat (DataCollectionForm.longitude f)) isoNow)).
Proof.
  intros H. unfold missingField in H. unfold DataCollectionForm.handleSubmit.
  unfold DataCollectionForm.blank in *.
  destruct (DataCollectionForm.noPhoto (DataCollectionForm.photo f)) eqn:E0;
    [exfalso; apply H; left; reflexivity |].
  destruct (String.eqb_spec (DataCollectionForm.species f) EmptyString) as [E1 | _];
    [exfalso; apply H; right; left; exact E1 |].
  destruct (String.eqb_spec (DataCollectionForm.dbh f) EmptyString) as [E2 | _];
    [exfalso; apply H; right; right; left; exact E2 |].
  destruct (String.eqb_spec (DataCollectionForm.height f) EmptyString) as [E3 | _];
    [exfalso; apply H; right; right; right; left; exact E3 |].
  destruct (String.eqb_spec (DataCollectionForm.latitude f) EmptyString) as [E4 | _];
    [exfalso; apply H; right; right; right; right; left; exact E4 |].
  destruct (String.eqb_spec (DataCollectionForm.longitude f) EmptyString) as [E5 | _];
    [exfalso; apply H; right; right; right; right; right; exact E5 |].
  cbn [orb]. destruct (DataCollectionForm.photo f) as [p |]; [| discriminate].
  exists p. split; reflexivity.
Qed.

Lemma missingField_dec (f : DataCollectionForm.Form) :
  missingField f \/ ~ missingField f.
Proof.
  unfold missingField.
  destruct (DataCollectionForm.noPhoto (DataCollectionForm.photo f));
    [left; left; reflexivity |].
  destruct (string_dec (DataCollectionForm.species f) EmptyString) as [E | N1];
    [left; right; left; exact E |].
  destruct (string_dec (DataCollectionForm.dbh f) EmptyString) as [E | N2];
    [left; right; right; left; exact E |].
  destruct (string_dec (DataCollectionForm.height f) EmptyString) as [E | N3];
    [left; right; right; right; left; exact E |].
  destruct (string_dec (DataCollectionForm.latitude f) EmptyString) as [E | N4];
    [left; right; right; right; right; left; exact E |].
  destruct (string_dec (DataCollectionForm.longitude f) EmptyString) as [E | N5];
    [left; right; right; right; right; right; exact E |].
  right. intros [H | [H | [H | [H | [H | H]]]]];
    [discriminate | contradiction ..].
Qed.

Lemma cons_neq {A : Type} (a : A) (l : list A) : a :: l <> l.
Proof.
  intros E. apply (f_equal (@List.length A)) in E. cbn in E. lia.
Qed.

(** A submit adds a record exactly when no required input is empty; the
    notes are not required.  A rejected submit changes nothing but the error
    line: the nine entries and the application state stay as they are.  An
    accepted one empties the form, shows the dashboard and prepends one
    record: the entries as they stand, the four numbers read by
    [parseFloat], the two time stamps, and the metrics the calculators give
    for the numbers read. *)
Theorem submit_adds_iff_complete (parseFloat : string -> R)
    (f : DataCollectionForm.Form) (st : App.State) (isoNow : string) (now : Z) :
  let r := submit parseFloat f st isoNow now in
  (App.trees (snd r) = App.trees st <-> missingField f)
  /\
  (missingField f ->
   r = (DataCollectionForm.mkForm
          (DataCollectionForm.species f) (DataCollectionForm.dbh f)
          (DataCollectionForm.height f) (DataCollectionForm.condition f)
          (DataCollectionForm.proximityToBuilding f) (DataCollectionForm.notes f)
          (DataCollectionForm.photo f) (DataCollectionForm.latitude f)
          (DataCollectionForm.longitude f)
          (Some "Harap isi semua kolom yang wajib diisi dan unggah foto."%string),
        st))
  /\
  (~ missingField f ->
   exists p,
     DataCollectionForm.photo f = Some p /\
     r = (DataCollectionForm.mkForm EmptyString EmptyString EmptyString HEALTHY
            ProxNone EmptyString None EmptyString EmptyString None,
          App.mkState ViewDashboard
            (Tree.mk (DataCollectionForm.species f)
                     (parseFloat (DataCollectionForm.dbh f))
                     (parseFloat (DataCollectionForm.height f))
                     (DataCollectionForm.condition f)
                     (DataCollectionForm.proximityToBuilding f)
                     (DataCollectionForm.notes f) p
                     (parseFloat (DataCollectionForm.latitude f))
                     (parseFloat (DataCollectionForm.longitude f))
                     isoNow now
                     (calculateCarbonMetrics
                        (parseFloat (DataCollectionForm.dbh f))
                        (parseFloat (DataCollectionForm.height f)))
                     (calculateEcosystemServices
                        (parseFloat (DataCollectionForm.dbh f))
                        (DataCollectionForm.proximityToBuilding f))
             :: App.trees st))).
Proof.
  cbn zeta. unfold submit.
  destruct (missingField_dec f) as [Hm | Hc].
  - rewrite (handleSubmit_incomplete parseFloat f isoNow Hm). cbn [fst snd].
    split; [split; [intros _; exact Hm | reflexivity] |].
    split; [intros _; reflexivity | intros Hc; contradiction].
  - destruct (handleSubmit_complete parseFloat f isoNow Hc) as [p [Hp ->]].
    cbn [fst snd App.handleAddTree App.trees App.view].
    split; [split; [intros E; exfalso; exact (cons_neq _ _ E) | intros Hm; contradiction] |].
    split; [intros Hm; contradiction |].
    intros _. exists p. split; [exact Hp | reflexivity].
Qed.

Lemma submit_adds_iff_complete_witness :
  exists p,
    DataCollectionForm.photo (filledForm "50") = Some p /\
    submit sampleParseFloat (filledForm "50") (App.mkState ViewForm [])
           "2024-05-01T00:00:00.000Z" 1714521600000 =
      (DataCollectionForm.mkForm EmptyString EmptyString EmptyString HEALTHY
         ProxNone EmptyString None EmptyString EmptyString None,
       App.mkState ViewDashboard
         [Tree.mk "Jati" (sampleParseFloat "50") (sampleParseFloat "25") HEALTHY
                  ProxNear EmptyString p (sampleParseFloat "1") (sampleParseFloat "1")
                  "2024-05-01T00:00:00.000Z" 1714521600000
                  (calculateCarbonMetrics (sampleParseFloat "50") (sampleParseFloat "25"))
                  (calculateEcosystemServices (sampleParseFloat "50") ProxNear)]).
Proof.
  apply (proj2 (proj2 (submit_adds_iff_complete sampleParseFloat (filledForm "50")
                         (App.mkState ViewForm [])
                         "2024-05-01T00:00:00.000Z" 1714521600000))).
  intros [H | [H | [H | [H | [H | H]]]]]; discriminate.
Defined.

(** [resetForm] only asks for the new state, which the next render shows:
    the submit handler of the render that was accepted still holds the
    entries it captured.  Run once more before that render, it is accepted
    again and prepends a second record with the same entries and metrics
    and its own two time stamps, the same id when the clock has not moved.
    The handler of the next render holds the emptied form: it adds nothing
    and shows the error line. *)
Theorem resubmit_before_render_adds_again (parseFloat : string -> R)
    (f : DataCollectionForm.Form) (st : App.State)
    (iso1 iso2 : string) (now1 now2 : Z) :
  ~ missingField f ->
  let first := submit parseFloat f st iso1 now1 in
  let again := submit parseFloat f (snd first) iso2 now2 in
  let later := submit parseFloat (fst first) (snd first) iso2 now2 in
  (exists t1,
     App.trees (snd first) = t1 :: App.trees st /\
     Tree.inventoryDate t1 = iso1 /\ Tree.id t1 = now1 /\
     App.trees (snd again) =
       Tree.mk (Tree.species t1) (Tree.dbh t1) (Tree.height t1) (Tree.condition t1)
               (Tree.proximityToBuilding t1) (Tree.notes t1) (Tree.photo t1)
               (Tree.latitude t1) (Tree.longitude t1) iso2 now2
               (Tree.carbon t1) (Tree.ecosystemServices t1)
       :: t1 :: App.trees st)
  /\
  map Tree.id (firstn 2 (App.trees (snd again))) = [now2; now1]
  /\
  (snd later = snd first /\
   DataCollectionForm.error (fst later) =
     Some "Harap isi semua kolom yang wajib diisi dan unggah foto."%string).
Proof.
  intros Hc. cbn zeta. unfold submit.
  destruct (handleSubmit_complete parseFloat f iso1 Hc) as [p [Hp ->]].
  destruct (handleSubmit_complete parseFloat f iso2 Hc) as [p' [Hp' ->]].
  assert (p' = p) by congruence. subst p'.
  cbn [fst snd App.handleAddTree App.trees].
  rewrite (handleSubmit_incomplete parseFloat DataCollectionForm.initial iso2)
    by (left; reflexivity).
  cbn [fst snd DataCollectionForm.error].
  split; [| split; [reflexivity | split; reflexivity]].
  eexists. split; [reflexivity |]. split; [reflexivity |]. split; reflexivity.
Qed.

Lemma resubmit_before_render_adds_again_witness :
  let first := submit sampleParseFloat (filledForm "50") (App.mkState ViewForm [])
                      "2024-05-01T00:00:00.000Z" 1714521600000 in
  let again := submit sampleParseFloat (filledForm "50") (snd first)
                      "2024-05-01T00:00:00.000Z" 1714521600000 in
  map Tree.id (firstn 2 (App.trees (snd again))) = [1714521600000; 1714521600000]%Z.
Proof.
  apply (proj1 (proj2 (resubmit_before_render_adds_again sampleParseFloat
                         (filledForm "50") (App.mkState ViewForm [])
                         "2024-05-01T00:00:00.000Z" "2024-05-01T00:00:00.000Z"
                         1714521600000 1714521600000
                         ltac:(intros [H | [H | [H | [H | [H | H]]]]]; discriminate)))).
Defined.


(** The form checks that the inputs are filled in, not what they say: a
    complete form whose diameter reads as a non-positive number is accepted,
    and its record counts as a tree while every one of its metrics, and so
    its share of every total, is 0. *)
Theorem nonpositive_dbh_is_accepted (parseFloat : string -> R)
    (f : DataCollectionForm.Form) (st : App.State) (isoNow : string) (now : Z) :
  ~ missingField f ->
  parseFloat (DataCollectionForm.dbh f) <= 0 ->
  let st' := snd (submit parseFloat f st isoNow now) in
  map Tree.carbon (firstn 1 (App.trees st')) = [mkCarbonMetrics 0 0 0] /\
  map Tree.ecosystemServices (firstn 1 (App.trees st')) = [noServices] /\
  Dashboard.totalTrees (Dashboard.stats (App.trees st')) =
    S (Dashboard.totalTrees (Dashboard.stats (App.trees st))) /\
  Dashboard.totalCarbon (Dashboard.stats (App.trees st')) =
    Dashboard.totalCarbon (Dashboard.stats (App.trees st)) /\
  Dashboard.totalMonetaryValue (Dashboard.stats (App.trees st')) =
    Dashboard.totalMonetaryValue (Dashboard.stats (App.trees st)).
Proof.
  intros Hc Hd. cbn zeta. unfold submit.
  destruct (handleSubmit_complete parseFloat f isoNow Hc) as [p [_ ->]].
  cbn [snd App.handleAddTree App.trees].
  destruct (stats_totals (App.trees st)) as (H0 & H1 & _ & _ & H4).
  match goal with
  | |- context [Dashboard.stats (?t :: App.trees st)] =>
      destruct (stats_totals (t :: App.trees st)) as (K0 & K1 & _ & _ & K4)
  end.
  cbn zeta in *. rewrite H0, H1, H4, K0, K1, K4.
  cbn [firstn map App.newTree Tree.carbon Tree.ecosystemServices NewTree.dbh
       NewTree.height NewTree.proximityToBuilding List.length sumList fold_right].
  rewrite calculateCarbonMetrics_degenerate by (left; exact Hd).
  rewrite calculateEcosystemServices_degenerate by exact Hd.
  cbn [co2Sequestrated annualMonetaryValue total].
  repeat split; try reflexivity; unfold sumList; lra.
Qed.

Lemma nonpositive_dbh_is_accepted_witness :
  let st := App.mkState ViewForm [] in
  let st' := snd (submit sampleParseFloat (filledForm "0") st
                         "2024-05-01T00:00:00.000Z" 1714521600000) in
  map Tree.carbon (firstn 1 (App.trees st')) = [mkCarbonMetrics 0 0 0] /\
  map Tree.ecosystemServices (firstn 1 (App.trees st')) = [noServices] /\
  Dashboard.totalTrees (Dashboard.stats (App.trees st')) =
    S (Dashboard.totalTrees (Dashboard.stats (App.trees st))) /\
  Dashboard.totalCarbon (Dashboard.stats (App.trees st')) =
    Dashboard.totalCarbon (Dashboard.stats (App.trees st)) /\
  Dashboard.totalMonetaryValue (Dashboard.stats (App.trees st')) =
    Dashboard.totalMonetaryValue (Dashboard.stats (App.trees st)).
Proof.
  apply (nonpositive_dbh_is_accepted sampleParseFloat (filledForm "0")
           (App.mkState ViewForm []) "2024-05-01T00:00:00.000Z" 1714521600000).
  - intros [H | [H | [H | [H | [H | H]]]]]; discriminate.
  - cbn. lra.
Defined.



(** ** CSV export *)

Lemma unquoteBody_escapeQuotes (s : string) :
  unquoteBody (Csv.escapeQuotes s ++ String Csv.quote EmptyString) = Some s.
Proof.
  induction s as [| c s IH]; [reflexivity |].
  cbn [Csv.escapeQuotes]. destruct (Ascii.eqb c Csv.quote) eqn:E.
  - apply Ascii.eqb_eq in E. subst c.
    cbn [String.append unquoteBody]. rewrite Ascii.eqb_refl, IH. reflexivity.
  - cbn [String.append unquoteBody]. rewrite E, IH. reflexivity.
Qed.

(** The quoted field of the CSV export reads back, by the rule of RFC 4180,
    as the text that was quoted, whatever quotes, commas or line breaks it
    holds; so different texts give different fields. *)
Theorem csv_quoted_field_reads_back (s : string) :
  unquote (Csv.quoted s) = Some s
  /\
  forall s' : string, Csv.quoted s = Csv.quoted s' -> s = s'.
Proof.
  assert (H : forall t, unquote (Csv.quoted t) = Some t).
  { intros t. unfold Csv.quoted, unquote. rewrite Ascii.eqb_refl.
    apply unquoteBody_escapeQuotes. }
  split; [apply H |].
  intros s' E. pose proof (H s) as H1. rewrite E, H in H1. injection H1 as ->.
  reflexivity.
Qed.
